(** * react-native-calendars: week window and expandable calendar

    A shallow embedding of the two stateful cores of the repository:

    - [WeekCalendar] ([src/expandableCalendar/WeekCalendar/new.tsx]): the
      window of week pages ([getDate], [getDatesArray]) and the callbacks
      handed to the infinite list ([onPageChange], [reloadPages], the effect
      on the context date);
    - [ExpandableCalendar] (the expandable calendar component): the derived
      heights, the pan gesture handlers, [bounceToPosition] and
      [toggleCalendarPosition].

    Pixel quantities (heights, gesture deltas, thresholds) are JavaScript
    numbers in the source; they are modelled as integers [Z], which keeps
    every comparison, [Math.min]/[Math.max] and addition of the source
    exact.  The opacity channel divides, and is modelled in [Q]. *)

From Stdlib Require Import ZArith Lia List Bool String Ascii.
From Stdlib Require Import QArith Qminmax Qround Qabs.
Import ListNotations.

Local Open Scope Z_scope.

(* ================================================================== *)
(** * Part I: the embedding *)
(* ================================================================== *)

(** ** Counting loops and bounded checks *)

(** [all_from n z p] tests [p] on [z, z+1, ..., z+n-1]. *)
Fixpoint all_from (n : nat) (z : Z) (p : Z -> bool) : bool :=
  match n with
  | O => true
  | S k => if p z then all_from k (z + 1) p else false
  end.

(** [all_below n p] tests [p] on [0, 1, ..., n-1]. *)
Definition all_below (n : Z) (p : Z -> bool) : bool :=
  all_from (Z.to_nat n) 0 p.

(** Consecutive integers [i, i+1, ..., i+n-1]: the values the index of a
    counting [for] loop takes. *)
Fixpoint Zseq (i : Z) (n : nat) : list Z :=
  match n with
  | O => []
  | S k => i :: Zseq (i + 1) k
  end.

(** ** The date library *)

(** The source builds every date through the [xdate] package
    ([new XDate(s)], [getDay], [addDays], [addWeeks]) and serialises it with
    [toMarkingFormat].  Both work on calendar days; the model keeps a date
    as its day number in the proleptic Gregorian calendar, day [0] being
    1970-01-01, and [None] for an invalid date. *)
Module Civil.

(** Day number of the civil date [y]-[m]-[d] ([m] in 1..12). *)
Definition days_from_civil (y m d : Z) : Z :=
  let y' := if m <=? 2 then y - 1 else y in
  let mp := if m <=? 2 then m + 9 else m - 3 in
  365 * y' + y' / 4 - y' / 100 + y' / 400 + (153 * mp + 2) / 5 + d - 1
  - 719468.

(** Day of the 400-year era, year of the era, day of the (March based)
    year and March based month of a day number. *)
Definition doe_of (z : Z) : Z := (z + 719468) mod 146097.
Definition era_of (z : Z) : Z := (z + 719468) / 146097.
Definition yoe_of_doe (doe : Z) : Z :=
  (doe - doe / 1460 + doe / 36524 - doe / 146096) / 365.
Definition doy_of_doe (doe : Z) : Z :=
  let yoe := yoe_of_doe doe in
  doe - (365 * yoe + yoe / 4 - yoe / 100).
Definition mp_of_doe (doe : Z) : Z := (5 * doy_of_doe doe + 2) / 153.

(** Month (1..12), day of the month (1..31) and year of a day number. *)
Definition month_of (z : Z) : Z :=
  let mp := mp_of_doe (doe_of z) in
  if mp <? 10 then mp + 3 else mp - 9.
Definition day_of (z : Z) : Z :=
  let doe := doe_of z in
  doy_of_doe doe - (153 * mp_of_doe doe + 2) / 5 + 1.
Definition year_of (z : Z) : Z :=
  yoe_of_doe (doe_of z) + 400 * era_of z
  + (if month_of z <=? 2 then 1 else 0).

(** Day of the week, 0 = Sunday; day 0 (1970-01-01) is a Thursday. *)
Definition weekday_of (z : Z) : Z := (z + 4) mod 7.

(** The ranges of the fields computed from a day of the era. *)
Definition doe_ok (doe : Z) : bool :=
  let yoe := yoe_of_doe doe in
  let doy := doe - (365 * yoe + yoe / 4 - yoe / 100) in
  let mp := (5 * doy + 2) / 153 in
  let d := doy - (153 * mp + 2) / 5 + 1 in
  (0 <=? yoe) && (yoe <=? 399) && (0 <=? doy) && (doy <=? 365)
  && (0 <=? mp) && (mp <=? 11) && (1 <=? d) && (d <=? 31).

End Civil.

(** ** Decimal text *)
Module Decimal.
(** The character of a decimal digit [0..9]. *)
Definition digit (k : Z) : ascii := ascii_of_N (Z.to_N (48 + k)).

(** The value of a decimal digit character, if it is one. *)
Definition digit_val (c : ascii) : option Z :=
  let n := Z.of_N (N_of_ascii c) in
  if (48 <=? n) && (n <=? 57) then Some (n - 48) else None.

(** Digits of a non-negative number, most significant first. *)
Fixpoint itoa_aux (fuel : nat) (n : Z) (acc : string) : string :=
  match fuel with
  | O => acc
  | S f =>
      let acc' := String (digit (n mod 10)) acc in
      if n <? 10 then acc' else itoa_aux f (n / 10) acc'
  end.

(** JavaScript's [`${n}`] for an integer [n]. *)
Definition itoa (n : Z) : string :=
  let fuel := S (Z.to_nat (Z.log2 (Z.abs n))) in
  if n <? 0 then String "-"%char (itoa_aux fuel (- n) EmptyString)
  else itoa_aux fuel n EmptyString.

(** [n < 10 ? `0${n}` : `${n}`], the padding of months and days. *)
Definition pad2 (n : Z) : string :=
  if n <? 10 then String "0"%char (itoa n) else itoa n.

(** Two and four digit fields of a date text. *)
Definition num2 (a b : ascii) : option Z :=
  match digit_val a, digit_val b with
  | Some x, Some y => Some (10 * x + y)
  | _, _ => None
  end.

Definition num4 (a b c d : ascii) : option Z :=
  match num2 a b, num2 c d with
  | Some x, Some y => Some (100 * x + y)
  | _, _ => None
  end.

Definition text2 (n : Z) : string :=
  String (digit (n / 10)) (String (digit (n mod 10)) EmptyString).

Definition text4 (n : Z) : string :=
  String (digit (n / 1000)) (String (digit (n / 100 mod 10))
    (String (digit (n / 10 mod 10)) (String (digit (n mod 10)) EmptyString))).

End Decimal.

(** ** XDate objects

    An [XDate] is a mutable object: [addDays] and [addWeeks] change the
    receiver and return it.  Objects live in a store, and the operations are
    computations over that store. *)
Module XDate.
Import Civil Decimal.

(** What an object holds: a day number, or the invalid date. *)
Definition value := option Z.

(** Day number of the fields of a date text, as the [Date] constructor
    combines them: a year below 100 counts from 1900, a month outside
    1..12 carries into the year, and the day of the month adds linearly. *)
Definition of_fields (y m d : Z) : Z :=
  let y := if y <=? 99 then 1900 + y else y in
  let mi := m - 1 in
  days_from_civil (y + mi / 12) (mi mod 12 + 1) 1 + (d - 1).

(** [new XDate(s)] on a text [YYYY-MM-DD].  Any other text is outside the
    caller contract of the components and is given the invalid date. *)
Definition parse (s : string) : value :=
  match s with
  | String y1 (String y2 (String y3 (String y4 (String s1
      (String m1 (String m2 (String s2
        (String d1 (String d2 EmptyString))))))))) =>
      if Ascii.eqb s1 "-" && Ascii.eqb s2 "-" then
        match num4 y1 y2 y3 y4, num2 m1 m2, num2 d1 d2 with
        | Some y, Some m, Some d => Some (of_fields y m d)
        | _, _, _ => None
        end
      else None
  | _ => None
  end.

Definition getFullYear (z : Z) : Z := year_of z.
Definition getMonth (z : Z) : Z := month_of z - 1.
Definition getDate (z : Z) : Z := day_of z.

(** Modelled from the spec: [toMarkingFormat] of [src/interface] is not
    among the sources; it gives the canonical [YYYY-MM-DD] text of a date
    (year unpadded, month and day padded to two digits) and
    ['Invalid Date'] for the invalid date. *)
Definition format (v : value) : string :=
  match v with
  | Some z =>
      let year := itoa (getFullYear z) in
      let month := getMonth z + 1 in
      let day := getDate z in
      (year ++ "-" ++ pad2 month ++ "-" ++ pad2 day)%string
  | None => "Invalid Date"%string
  end.

(** A day number is canonical when its year has four digits: these are
    the dates whose text [new XDate] reads back. *)
Definition canonical (z : Z) : Prop := 1000 <= year_of z <= 9999.

Definition canonicalb (z : Z) : bool :=
  (1000 <=? year_of z) && (year_of z <=? 9999).

(** The day numbers of 1000-01-01 and 9999-12-31. *)
Definition min_day : Z := Eval vm_compute in days_from_civil 1000 1 1.
Definition max_day : Z := Eval vm_compute in days_from_civil 9999 12 31.

Definition in_range (z : Z) : Prop := min_day <= z <= max_day.

(** *** The store *)

Definition ref := nat.
Definition store := list value.

Definition read (l : ref) (h : store) : value := nth l h None.

Fixpoint write (l : ref) (v : value) (h : store) : store :=
  match h, l with
  | [], _ => []
  | _ :: t, O => v :: t
  | x :: t, S k => x :: write k v t
  end.

(** Computations over the store. *)
Definition M (A : Type) : Type := store -> A * store.

Definition ret {A} (a : A) : M A := fun h => (a, h).
Definition bind {A B} (m : M A) (k : A -> M B) : M B :=
  fun h => let (a, h') := m h in k a h'.

(** The result of a computation started in an empty store. *)
Definition eval {A} (m : M A) : A := fst (m []).

(** [new XDate(s)] *)
Definition new (s : string) : M ref :=
  fun h => (List.length h, h ++ [parse s]).

(** [d.getDay()]: 0 (Sunday) .. 6, or [None] for NaN. *)
Definition getDay (l : ref) : M (option Z) :=
  fun h => (option_map weekday_of (read l h), h).

(** [d.addDays(n)]: moves the receiver and returns it; a NaN amount or an
    invalid receiver leaves the invalid date. *)
Definition addDays (l : ref) (n : option Z) : M ref :=
  fun h =>
    let v := match read l h, n with
             | Some z, Some k => Some (z + k)
             | _, _ => None
             end in
    (l, write l v h).

(** [d.addWeeks(n)] *)
Definition addWeeks (l : ref) (n : Z) : M ref :=
  fun h =>
    let v := match read l h with
             | Some z => Some (z + 7 * n)
             | None => None
             end in
    (l, write l v h).

(** [toMarkingFormat(d)] *)
Definition toMarkingFormat (l : ref) : M string :=
  fun h => (format (read l h), h).

End XDate.

Notation "x <- c ;; k" := (XDate.bind c (fun x => k))
  (at level 61, c at next level, right associativity).

(** ** The week calendar *)

Module WeekCalendar.
Import Civil XDate.

Definition NUMBER_OF_PAGES : Z := 50.
Definition DEFAULT_PAGE_HEIGHT : Z := 48.

(** [getDate(date, firstDay, weekIndex)] *)
Definition getDate (date : string) (firstDay weekIndex : Z) : M string :=
  d <- new date ;;
  (* get the first day of the week as date (for the on scroll mark) *)
  dow <- getDay d ;;
  let dayOfTheWeek :=
    match dow with
    | Some w =>
        if (w <? firstDay) && (firstDay >? 0) then Some (7 + w) else Some w
    | None => None
    end in
  (* leave the current date in the visible week as is *)
  dd <- (if weekIndex =? 0 then ret d
         else addDays d (option_map (fun w => firstDay - w) dayOfTheWeek)) ;;
  newDate <- addWeeks dd weekIndex ;;
  toMarkingFormat newDate.

(** The body of the [for] loop of [getDatesArray], run [n] times from
    [index]. *)
Fixpoint getDatesArray_loop (n : nat) (date : string) (firstDay index : Z)
    (array : list string) : M (list string) :=
  match n with
  | O => ret array
  | S k =>
      d <- getDate date firstDay index ;;
      getDatesArray_loop k date firstDay (index + 1) (array ++ [d])
  end.

(** [getDatesArray(date, firstDay, numberOfPages)]: the loop runs for
    [index = -numberOfPages .. numberOfPages], that is [2*numberOfPages+1]
    times, and not at all when that count is not positive. *)
Definition getDatesArray (date : string) (firstDay numberOfPages : Z)
    : M (list string) :=
  getDatesArray_loop (Z.to_nat (2 * numberOfPages + 1)) date firstDay
    (- numberOfPages) [].

(** ** What the loop computes *)

(** The [dayOfTheWeek] of [getDate] after its wrap. *)
Definition wrappedDay (z firstDay : Z) : Z :=
  let w := weekday_of z in
  if (w <? firstDay) && (firstDay >? 0) then 7 + w else w.

(** The first day of the week of day [z]. *)
Definition weekStart (z firstDay : Z) : Z :=
  z + (firstDay - wrappedDay z firstDay).

(** The day a page stands for. *)
Definition pageDay (z firstDay weekIndex : Z) : Z :=
  if weekIndex =? 0 then z else weekStart z firstDay + 7 * weekIndex.

Definition pageValue (date : string) (firstDay weekIndex : Z) : value :=
  option_map (fun z => pageDay z firstDay weekIndex) (parse date).

Definition pageText (date : string) (firstDay weekIndex : Z) : string :=
  format (pageValue date firstDay weekIndex).

(** The window, as a value. *)
Definition window (date : string) (firstDay numberOfPages : Z)
    : list string :=
  eval (getDatesArray date firstDay numberOfPages).


(** Days from the date of text [s] to the date of text [t]. *)
Definition daysBetween (s t : string) : option Z :=
  match parse s, parse t with
  | Some a, Some b => Some (b - a)
  | _, _ => None
  end.

(** How far day [z] is into its week. *)
Definition dayInWeek (z firstDay : Z) : Z := z - weekStart z firstDay.

(** The distance in days from the entry at index [i] of a window of radius
    [numberOfPages] on day [z] to the next one. *)
Definition gap (z firstDay numberOfPages i : Z) : Z :=
  if i + 1 =? numberOfPages then 7 + dayInWeek z firstDay
  else if i =? numberOfPages then 7 - dayInWeek z firstDay
  else 7.

(** Every entry of [w] is seven days before the next one. *)
Definition everySevenDays (w : list string) : Prop :=
  forall (i : nat) (x y : string),
    nth_error w i = Some x -> nth_error w (S i) = Some y ->
    daysBetween x y = Some 7.

(** The text of a date with a four-digit year. *)
Definition canonicalText (s : string) : Prop :=
  exists z, canonical z /\ s = format (Some z).

(** *** The component *)

(** Modelled from the spec: [UpdateSources] of [expandableCalendar/commons]
    is not among the sources; the spec gives the provenance tags
    ArrowPress, WeekArrowPress, DayPress, WeekScroll and PageScroll. *)
Inductive UpdateSources : Type :=
| ARROW_PRESS
| WEEK_ARROW_PRESS
| DAY_PRESS
| WEEK_SCROLL
| PAGE_SCROLL.

Definition UpdateSources_eqb (a b : UpdateSources) : bool :=
  match a, b with
  | ARROW_PRESS, ARROW_PRESS
  | WEEK_ARROW_PRESS, WEEK_ARROW_PRESS
  | DAY_PRESS, DAY_PRESS
  | WEEK_SCROLL, WEEK_SCROLL
  | PAGE_SCROLL, PAGE_SCROLL => true
  | _, _ => false
  end.

(** What the component reads from the shared context. *)
Record Context : Type := {
  date : string;
  updateSource : UpdateSources
}.

(** The state of the component: the window ([useState]), and the calls it
    has made to its collaborators: [context.setDate(date, source)] (the date
    is [None] when the source passes [undefined]),
    [list.scrollToOffset(x, y, animated)], and the number of [setItems]
    calls. *)
Record State : Type := {
  items : list string;
  setDateCalls : list (option string * UpdateSources);
  scrollCalls : list (Z * Z * bool);
  setItemsCalls : nat
}.

Definition setDate (d : option string) (src : UpdateSources) (st : State)
    : State :=
  {| items := items st;
     setDateCalls := setDateCalls st ++ [(d, src)];
     scrollCalls := scrollCalls st;
     setItemsCalls := setItemsCalls st |}.

Definition scrollToOffset (x y : Z) (animated : bool) (st : State) : State :=
  {| items := items st;
     setDateCalls := setDateCalls st;
     scrollCalls := scrollCalls st ++ [(x, y, animated)];
     setItemsCalls := setItemsCalls st |}.

Definition setItems (w : list string) (st : State) : State :=
  {| items := w;
     setDateCalls := setDateCalls st;
     scrollCalls := scrollCalls st;
     setItemsCalls := S (setItemsCalls st) |}.

(** [array[i]]: [None] is [undefined], outside the array. *)
Definition item_at (array : list string) (i : Z) : option string :=
  if i <? 0 then None else nth_error array (Z.to_nat i).

(** [array.findIndex(p)], counting from [i]; [-1] when nothing matches. *)
Fixpoint findIndex_from (p : string -> bool) (array : list string) (i : Z)
    : Z :=
  match array with
  | [] => -1
  | x :: t => if p x then i else findIndex_from p t (i + 1)
  end.

Definition findIndex (p : string -> bool) (array : list string) : Z :=
  findIndex_from p array 0.

(** [Math.round(x)] *)
Definition Math_round (x : Q) : Z := Qfloor (x + (1 # 2))%Q.

(** The [onReachNearEdgeThreshold] handed to the infinite list:
    [Math.round(NUMBER_OF_PAGES * 0.4)]. *)
Definition onReachNearEdgeThreshold : Z :=
  Math_round (inject_Z NUMBER_OF_PAGES * (4 # 10))%Q.

Section Component.

(** Props: [firstDay] and the width of a page.  [sameWeek] of [dateutils]
    is not among the sources and is taken as given. *)
Variable firstDay : Z.
Variable containerWidth : Z.
Variable sameWeek : string -> string -> Z -> bool.

(** [useState(getDatesArray(current || date, firstDay, NUMBER_OF_PAGES))] *)
Definition initialState (current : option string) (ctx : Context) : State :=
  let anchor :=
    match current with
    | Some c => if String.eqb c EmptyString then date ctx else c
    | None => date ctx
    end in
  {| items := window anchor firstDay NUMBER_OF_PAGES;
     setDateCalls := [];
     scrollCalls := [];
     setItemsCalls := 0 |}.

(** The effect on [date]: runs when the context date has changed. *)
Definition dateEffect (ctx : Context) (st : State) : State :=
  if negb (UpdateSources_eqb (updateSource ctx) WEEK_SCROLL) then
    let pageIndex :=
      findIndex (fun item => sameWeek item (date ctx) firstDay) (items st) in
    scrollToOffset (pageIndex * containerWidth) 0 false st
  else st.

(** [onPageChange(pageIndex, _prevPage, {scrolledByUser})] *)
Definition onPageChange (pageIndex : Z) (scrolledByUser : bool) (st : State)
    : State :=
  if scrolledByUser then
    setDate (item_at (items st) pageIndex) WEEK_SCROLL st
  else st.

(** [reloadPages(pageIndex)].  When [items[pageIndex]] is [undefined] the
    date library is called on [undefined]; that case is outside the model
    ([None]). *)
Definition reloadPages (pageIndex : Z) (st : State) : option State :=
  match item_at (items st) pageIndex with
  | Some date => Some (setItems (window date firstDay NUMBER_OF_PAGES) st)
  | None => None
  end.

End Component.

(** Modelled from the spec: [sameWeek] of [dateutils] is not among the
    sources; by the spec it tells whether a date "falls within the current
    week of an already-displayed page".  This is that test on two date
    texts, used where a concrete [sameWeek] is needed. *)
Definition sameWeekOfDays (a b : string) (firstDay : Z) : bool :=
  match parse a, parse b with
  | Some x, Some y => weekStart x firstDay =? weekStart y firstDay
  | _, _ => false
  end.

End WeekCalendar.

(** ** The expandable calendar *)

Module ExpandableCalendar.

Inductive Positions : Type := CLOSED | OPEN.

Definition Positions_eqb (a b : Positions) : bool :=
  match a, b with
  | CLOSED, CLOSED | OPEN, OPEN => true
  | _, _ => false
  end.

Definition SPEED : Z := 20.
Definition BOUNCINESS : Z := 6.
Definition WEEK_HEIGHT : Z := 46.
Definition PAN_GESTURE_THRESHOLD : Z := 30.
Definition DEFAULT_HEADER_HEIGHT : Z := 78.

(** The props the height logic reads.  [hideKnob] is optional, and
    [numberOfDays] comes from the context and may be absent. *)
Record Props : Type := {
  initialPosition : Positions;
  disablePan : bool;
  hideKnobProp : option bool;
  openThreshold : Z;
  closeThreshold : Z;
  horizontal : bool;
  numberOfDays : option Z
}.

(** The props a component gets when none is passed. *)
Definition defaultProps : Props :=
  {| initialPosition := CLOSED;
     disablePan := false;
     hideKnobProp := None;
     openThreshold := PAN_GESTURE_THRESHOLD;
     closeThreshold := PAN_GESTURE_THRESHOLD;
     horizontal := true;
     numberOfDays := None |}.

(** The spring started by [bounceToPosition], with what its completion
    callback has captured. *)
Record Spring : Type := {
  toValue : Z;
  cb_isOpen : bool;
  cb_closedHeight : Z
}.

(** The state and refs of the component, the styles it pushes to the native
    views, its animated values and the [onCalendarToggled] calls it made. *)
Record State : Type := {
  position : Positions;
  headerHeight : Z;
  numberOfWeeks : Z;
  openHeight : Z;
  _height : Z;
  wrapperHeight : Z;
  headerTop : Z;
  weekOpacity : Q;
  deltaY : Z;
  headerDeltaY : Z;
  spring : option Spring;
  headerSpring : option Z;
  toggled : list bool
}.

Definition isOpen (st : State) : bool :=
  match position st with OPEN => true | CLOSED => false end.

Section Component.

(** [KNOB_CONTAINER_HEIGHT] of [./style] and the screen size of
    [commons/constants] are not among the sources and are taken as given. *)
Variable KNOB_CONTAINER_HEIGHT : Z.
Variable screenHeight : Z.
Variable screenWidth : Z.

Variable props : Props.

(** [hideKnob = numberOfDays && numberOfDays > 1] unless the prop is set. *)
Definition hideKnob : bool :=
  match hideKnobProp props with
  | Some b => b
  | None =>
      match numberOfDays props with
      | Some n => negb (n =? 0) && (n >? 1)
      | None => false
      end
  end.

(** [Number(numberOfDays) > 1] *)
Definition multiDay : bool :=
  match numberOfDays props with
  | Some n => n >? 1
  | None => false
  end.

(** [getOpenHeight()] *)
Definition getOpenHeight (st : State) : Z :=
  if negb (horizontal props) then Z.max screenHeight screenWidth
  else headerHeight st + WEEK_HEIGHT * numberOfWeeks st
       + (if hideKnob then 0 else KNOB_CONTAINER_HEIGHT).

(** [closedHeight] *)
Definition closedHeight (st : State) : Z :=
  headerHeight st + WEEK_HEIGHT
  + (if hideKnob || multiDay then 0 else KNOB_CONTAINER_HEIGHT).

(** [startHeight] *)
Definition startHeight (st : State) : Z :=
  if isOpen st then getOpenHeight st else closedHeight st.

(** The state at mount, for a visible month of [weeks] weeks. *)
Definition mount (weeks : Z) : State :=
  let pos := match numberOfDays props with
             | Some n => if n =? 0 then initialPosition props else CLOSED
             | None => initialPosition props
             end in
  let st0 := {| position := pos; headerHeight := 0; numberOfWeeks := weeks;
                openHeight := 0; _height := 0; wrapperHeight := 0;
                headerTop := 0; weekOpacity := 0; deltaY := 0;
                headerDeltaY := 0; spring := None; headerSpring := None;
                toggled := [] |} in
  {| position := pos;
     headerHeight := 0;
     numberOfWeeks := weeks;
     openHeight := getOpenHeight st0;
     _height := startHeight st0;
     wrapperHeight := startHeight st0;
     headerTop := 0;
     weekOpacity := if isOpen st0 then 0 else 1;
     deltaY := startHeight st0;
     headerDeltaY := 0;
     spring := None;
     headerSpring := None;
     toggled := [] |}.

(** A render after [position] or [headerHeight] has changed, [prev] being
    the state at the render before.  The style objects of the header and of
    the week strip are made anew; the effect on [headerHeight] refreshes
    [openHeight.current]; and, when [startHeight] has changed, the effect
    on [startHeight] resets the height, the animated value and the wrapper
    style. *)
Definition render (prev st : State) : State :=
  let moved := negb (startHeight st =? startHeight prev) in
  {| position := position st;
     headerHeight := headerHeight st;
     numberOfWeeks := numberOfWeeks st;
     openHeight :=
       if headerHeight st =? headerHeight prev then openHeight st
       else getOpenHeight st;
     _height := if moved then startHeight st else _height st;
     wrapperHeight := if moved then startHeight st else wrapperHeight st;
     headerTop := if isOpen st then - headerHeight st else 0;
     weekOpacity := if isOpen st then 0 else 1;
     deltaY := if moved then startHeight st else deltaY st;
     headerDeltaY := headerDeltaY st;
     spring := spring st;
     headerSpring := headerSpring st;
     toggled := toggled st |}.

(** [onHeaderLayout]: [setHeaderHeight(height || DEFAULT_HEADER_HEIGHT)];
    a new value renders the component again. *)
Definition onHeaderLayout (height : Z) (st : State) : State :=
  let h := if height =? 0 then DEFAULT_HEADER_HEIGHT else height in
  if h =? headerHeight st then st
  else
    render st
      {| position := position st;
         headerHeight := h;
         numberOfWeeks := numberOfWeeks st;
         openHeight := openHeight st;
         _height := _height st;
         wrapperHeight := wrapperHeight st;
         headerTop := headerTop st;
         weekOpacity := weekOpacity st;
         deltaY := deltaY st;
         headerDeltaY := headerDeltaY st;
         spring := spring st;
         headerSpring := headerSpring st;
         toggled := toggled st |}.

(** [handleMoveShouldSetPanResponder] *)
Definition handleMoveShouldSetPanResponder (dy : Z) (st : State) : bool :=
  if disablePan props then false
  else if negb (horizontal props) && isOpen st then false
  else if negb (isOpen st) && (dy <? 0) then false
  else (dy >? 5) || (dy <? -5).

(** [handlePanResponderMove]: the height and styles pushed to the views. *)
Definition handlePanResponderMove (dy : Z) (st : State) : State :=
  (* limit min height to closed height and max to open height *)
  let height :=
    Z.min (Z.max (closedHeight st) (_height st + dy)) (openHeight st) in
  let top :=
    if negb (horizontal props)
    then Z.min (Z.max (- dy) (- headerHeight st)) 0
    else headerTop st in
  let opacity :=
    if negb (horizontal props) then weekOpacity st
    else if negb (isOpen st)
         then Qmin 1 (Qmax (1 - inject_Z dy / 100) 0)
         else if dy <? 0
              then Qmax 0 (Qmin (Qabs (inject_Z dy / 200)) 1)
              else weekOpacity st in
  {| position := position st;
     headerHeight := headerHeight st;
     numberOfWeeks := numberOfWeeks st;
     openHeight := openHeight st;
     _height := _height st;
     wrapperHeight := height;
     headerTop := top;
     weekOpacity := opacity;
     deltaY := deltaY st;
     headerDeltaY := headerDeltaY st;
     spring := spring st;
     headerSpring := headerSpring st;
     toggled := toggled st |}.

(** [bounceToPosition(toValue = 0)]: [None] is a call without argument.
    The spring it starts takes the place of one still in flight. *)
Definition bounceToPosition (arg : option Z) (st : State) : State :=
  let toValue := match arg with Some v => v | None => 0 end in
  let threshold :=
    if isOpen st then openHeight st - closeThreshold props
    else closedHeight st + openThreshold props in
  let _isOpen := _height st >=? threshold in
  let newValue := if _isOpen then openHeight st else closedHeight st in
  (* deltaY.setValue(_height.current) *)
  let start := _height st in
  (* _height.current = toValue || newValue *)
  let height := if toValue =? 0 then newValue else toValue in
  (* re-check after _height.current was set *)
  let _isOpen := height >=? threshold in
  {| position := position st;
     headerHeight := headerHeight st;
     numberOfWeeks := numberOfWeeks st;
     openHeight := openHeight st;
     _height := height;
     wrapperHeight := wrapperHeight st;
     headerTop := headerTop st;
     (* resetWeekCalendarOpacity(_isOpen) *)
     weekOpacity := if _isOpen then 0 else 1;
     deltaY := start;
     (* toggleAnimatedHeader(_isOpen) *)
     headerDeltaY := headerTop st;
     spring := Some {| toValue := height; cb_isOpen := _isOpen;
                       cb_closedHeight := closedHeight st |};
     headerSpring :=
       if negb (horizontal props)
       then Some (if _isOpen then - headerHeight st else 0)
       else headerSpring st;
     toggled := toggled st |}.

(** The completion callback of the spring on [deltaY]:
    [onCalendarToggled?.(_isOpen)] and [setPosition], which reads
    [_height.current] when it runs. *)
Definition springCallback (s : Spring) (st : State) : State :=
  {| position := if _height st =? cb_closedHeight s then CLOSED else OPEN;
     headerHeight := headerHeight st;
     numberOfWeeks := numberOfWeeks st;
     openHeight := openHeight st;
     _height := _height st;
     wrapperHeight := wrapperHeight st;
     headerTop := headerTop st;
     weekOpacity := weekOpacity st;
     deltaY := toValue s;
     headerDeltaY := headerDeltaY st;
     spring := None;
     headerSpring := headerSpring st;
     toggled := toggled st ++ [cb_isOpen s] |}.

(** The spring on [deltaY] settles: its callback runs, and a new position
    renders the component again. *)
Definition springEnd (st : State) : State :=
  match spring st with
  | None => st
  | Some s =>
      let st1 := springCallback s st in
      if Positions_eqb (position st1) (position st) then st1
      else render st st1
  end.

(** [_height.current = Number(_wrapperStyles.current.style.height)] *)
Definition commitHeight (st : State) : State :=
  {| position := position st;
     headerHeight := headerHeight st;
     numberOfWeeks := numberOfWeeks st;
     openHeight := openHeight st;
     _height := wrapperHeight st;
     wrapperHeight := wrapperHeight st;
     headerTop := headerTop st;
     weekOpacity := weekOpacity st;
     deltaY := deltaY st;
     headerDeltaY := headerDeltaY st;
     spring := spring st;
     headerSpring := headerSpring st;
     toggled := toggled st |}.

(** [handlePanResponderEnd] *)
Definition handlePanResponderEnd (st : State) : State :=
  bounceToPosition None (commitHeight st).

(** [closeCalendar], once its timer fires. *)
Definition closeCalendar (st : State) : State :=
  if isOpen st then bounceToPosition (Some (closedHeight st)) st else st.

(** [toggleCalendarPosition()]: the value returned and the state left. *)
Definition toggleCalendarPosition (st : State) : bool * State :=
  let st' :=
    bounceToPosition
      (Some (if isOpen st then closedHeight st else openHeight st)) st in
  (negb (isOpen st), st').

(** The moves of a gesture, one per delta. *)
Definition moves (dys : list Z) (st : State) : State :=
  fold_left (fun s dy => handlePanResponderMove dy s) dys st.

(** A gesture: its moves, then the release. *)
Definition gesture (dys : list Z) (st : State) : State :=
  handlePanResponderEnd (moves dys st).

(** The threshold [bounceToPosition] compares against. *)
Definition bounceThreshold (st : State) : Z :=
  if isOpen st then openHeight st - closeThreshold props
  else closedHeight st + openThreshold props.

(** The live height lies between the closed and the open height. *)
Definition heightInBounds (st : State) : Prop :=
  closedHeight st <= wrapperHeight st <= openHeight st.

End Component.

(** A component with default props, a knob 24 high, on a 400 x 800 screen,
    showing a month of five weeks, once its header (78 high) is laid out:
    closed height 148, open height 332. *)
Definition sample : State :=
  onHeaderLayout 24 800 400 defaultProps 78 (mount 24 800 400 defaultProps 5).

(** *** Sequences of events *)

Section Events.

Variable KNOB_CONTAINER_HEIGHT : Z.
Variable screenHeight : Z.
Variable screenWidth : Z.
Variable props : Props.

(** [numberOfDaysCondition]: the pan handlers are installed only when it
    holds. *)
Definition numberOfDaysCondition : bool :=
  match numberOfDays props with
  | Some n => (n =? 0) || (n <=? 1)
  | None => true
  end.

(** What can happen to the component: the header is laid out with a
    height; a pan gesture delivers its deltas and is released; the knob is
    pressed; a day press asks to close the calendar. *)
Inductive Event : Type :=
| Layout (height : Z)
| Pan (dys : list Z)
| Knob
| DayPressClose.

(** The spring started by an event settles. *)
Definition settle (st : State) : State :=
  springEnd KNOB_CONTAINER_HEIGHT screenHeight screenWidth props st.

(** An event, followed by the settling of the spring it started. *)
Definition step (e : Event) (st : State) : State :=
  match e with
  | Layout h =>
      onHeaderLayout KNOB_CONTAINER_HEIGHT screenHeight screenWidth props h st
  | Pan dys =>
      if numberOfDaysCondition
      then settle (gesture KNOB_CONTAINER_HEIGHT props dys st)
      else st
  | Knob => settle (snd (toggleCalendarPosition KNOB_CONTAINER_HEIGHT props st))
  | DayPressClose => settle (closeCalendar KNOB_CONTAINER_HEIGHT props st)
  end.

Definition run (events : list Event) (st : State) : State :=
  fold_left (fun s e => step e s) events st.

(** The component is at rest: no spring in flight, the height is the
    closed or the open height, by its position, and [openHeight.current] is
    up to date. *)
Definition atRest (st : State) : Prop :=
  _height st
  = startHeight KNOB_CONTAINER_HEIGHT screenHeight screenWidth props st
  /\ openHeight st
     = getOpenHeight KNOB_CONTAINER_HEIGHT screenHeight screenWidth props st
  /\ spring st = None.

(** The styles pushed to the views are within their ranges. *)
Definition stylesInRange (st : State) : Prop :=
  (0 <= weekOpacity st <= 1)%Q
  /\ (0 <= headerHeight st -> - headerHeight st <= headerTop st <= 0).

End Events.

(** The height a move with delta [dy] gives. *)
Definition clampHeight (knobHeight : Z) (p : Props) (st : State) (dy : Z)
    : Z :=
  Z.min (Z.max (closedHeight knobHeight p st) (_height st + dy))
    (openHeight st).

End ExpandableCalendar.

(** ** Paging the expandable calendar *)

Module Navigation.
Import Civil XDate ExpandableCalendar.

(** [d.setDate(n)]: day [n] of the month of the receiver, days outside the
    month carrying over linearly. *)
Definition setDate (l : ref) (n : Z) : M ref :=
  fun h =>
    let v :=
      option_map
        (fun z => days_from_civil (year_of z) (month_of z) 1 + (n - 1))
        (read l h) in
    (l, write l v h).

(** [d.addMonths(n)]: the same day of the month [n] months later, months
    carrying into the year. *)
Definition addMonths (l : ref) (n : Z) : M ref :=
  fun h =>
    let v :=
      option_map
        (fun z =>
           let mi := month_of z - 1 + n in
           days_from_civil (year_of z + mi / 12) (mi mod 12 + 1) 1
           + (day_of z - 1))
        (read l h) in
    (l, write l v h).

(** Modelled from the spec: [parseDate] of [src/interface] is not among the
    sources; by the spec the date collaborator can "parse from canonical
    string", which is what [new XDate] does on the context date. *)
Definition parseDate (date : string) : M ref := new date.

(** The months of the calendar counted from year 0: what [addMonths] adds
    to. *)
Definition monthIndex (z : Z) : Z := 12 * year_of z + (month_of z - 1).

(** The first of March based month [i mod 12] of year [i / 12] of an era
    is read back as such: the check of one month. *)
Definition first_of_month_ok (i : Z) : bool :=
  let yoe := i / 12 in
  let mp := i mod 12 in
  let g := 365 * yoe + yoe / 4 - yoe / 100 + (153 * mp + 2) / 5 in
  let yoe' := yoe_of_doe g in
  let doy := g - (365 * yoe' + yoe' / 4 - yoe' / 100) in
  let mp' := (5 * doy + 2) / 153 in
  (g <? 146097) && (yoe' =? yoe) && (mp' =? mp)
  && (doy - (153 * mp' + 2) / 5 + 1 =? 1).

Section Paging.

Variable props : Props.
Variable firstDay : Z.

(** [scrollPage(next, updateSource = UpdateSources.PAGE_SCROLL)], for the
    context date [date] and the state [st]: the [setDate] call it makes, if
    it makes one. *)
Definition scrollPage (st : State) (date : string) (next : bool)
    (updateSource : option WeekCalendar.UpdateSources)
    : M (option (string * WeekCalendar.UpdateSources)) :=
  let updateSource :=
    match updateSource with
    | Some s => s
    | None => WeekCalendar.PAGE_SCROLL
    end in
  if horizontal props then
    d <- parseDate date ;;
    _ <- (if isOpen st then
            _ <- setDate d 1 ;;
            addMonths d (if next then 1 else -1)
          else
            dow <- getDay d ;;
            let dayOfTheWeek :=
              match dow with
              | Some w =>
                  if (w <? firstDay) && (firstDay >? 0) then Some (7 + w)
                  else Some w
              | None => None
              end in
            match numberOfDays props with
            | Some 0 | None =>
                let firstDayOfWeek :=
                  option_map
                    (fun w => (if next then 7 else -7) - w + firstDay)
                    dayOfTheWeek in
                addDays d firstDayOfWeek
            | Some n =>
                let daysToAdd := if n <=? 1 then 7 else n in
                addDays d (Some (if next then daysToAdd else - daysToAdd))
            end) ;;
    s <- toMarkingFormat d ;;
    ret (Some (s, updateSource))
  else ret None.

(** [_onPressArrowLeft] and [_onPressArrowRight], after the [onPressArrow]
    callback of the host. *)
Definition _onPressArrow (st : State) (date : string) (next : bool)
    : M (option (string * WeekCalendar.UpdateSources)) :=
  scrollPage st date next
    (Some (if isOpen st then WeekCalendar.ARROW_PRESS
           else WeekCalendar.WEEK_ARROW_PRESS)).

(** The day [scrollPage] moves day [z] to. *)
Definition scrollTarget (st : State) (z : Z) (next : bool) : Z :=
  if isOpen st then
    let z1 := days_from_civil (year_of z) (month_of z) 1 + (1 - 1) in
    let mi := month_of z1 - 1 + (if next then 1 else -1) in
    days_from_civil (year_of z1 + mi / 12) (mi mod 12 + 1) 1
    + (day_of z1 - 1)
  else
    match numberOfDays props with
    | Some 0 | None =>
        z + ((if next then 7 else -7) - WeekCalendar.wrappedDay z firstDay
             + firstDay)
    | Some n =>
        z + (if next then (if n <=? 1 then 7 else n)
             else - (if n <=? 1 then 7 else n))
    end.

(** The start of the page a day is on: the first of its month for an open
    calendar, the day itself when days are paged by [numberOfDays], the
    start of its week otherwise. *)
Definition pageStart (st : State) (z : Z) : Z :=
  if isOpen st then days_from_civil (year_of z) (month_of z) 1
  else
    match numberOfDays props with
    | Some 0 | None => WeekCalendar.weekStart z firstDay
    | Some _ => z
    end.

End Paging.

(** A state of the expandable calendar with a given position, for the
    paging functions, which read nothing else of it. *)
Definition stateAt (pos : Positions) : State :=
  {| position := pos; headerHeight := 0; numberOfWeeks := 0;
     openHeight := 0; _height := 0; wrapperHeight := 0; headerTop := 0;
     weekOpacity := 0; deltaY := 0; headerDeltaY := 0; spring := None;
     headerSpring := None; toggled := [] |}.

End Navigation.

(* ================================================================== *)
(** * Part II: facts about the embedding *)
(* ================================================================== *)

Lemma all_from_spec (n : nat) (p : Z -> bool) :
  forall z0, all_from n z0 p = true ->
  forall z, z0 <= z < z0 + Z.of_nat n -> p z = true.
Proof.
  induction n as [|k IH]; intros z0 Hall z Hz.
  - simpl in Hz. lia.
  - cbn [all_from] in Hall.
    destruct (p z0) eqn:Hk; [|discriminate].
    destruct (Z.eq_dec z z0) as [->|Hne]; [exact Hk|].
    apply (IH (z0 + 1)); [exact Hall|lia].
Qed.

Lemma all_below_spec (n : Z) (p : Z -> bool) :
  all_below n p = true -> forall z, 0 <= z < n -> p z = true.
Proof.
  intros Hall z Hz. apply (all_from_spec _ _ 0 Hall). lia.
Qed.

Lemma Zseq_length (i : Z) (n : nat) : List.length (Zseq i n) = n.
Proof. revert i; induction n as [|k IH]; intros i; simpl; [|rewrite IH]; reflexivity. Qed.

Lemma Zseq_nth (n : nat) :
  forall (i : Z) (k : nat) (d : Z),
    (k < n)%nat -> nth k (Zseq i n) d = i + Z.of_nat k.
Proof.
  induction n as [|m IH]; intros i k d Hk; [lia|].
  destruct k as [|k]; simpl.
  - lia.
  - rewrite IH by lia. lia.
Qed.

Module CivilFacts.
Import Civil.

Lemma doe_ok_all : all_below 146097 doe_ok = true.
Proof. vm_cast_no_check (eq_refl true). Qed.

Lemma doe_range (z : Z) : 0 <= doe_of z < 146097.
Proof. unfold doe_of. apply Z.mod_pos_bound. lia. Qed.

Lemma doe_facts (z : Z) :
  let doe := doe_of z in
  0 <= yoe_of_doe doe <= 399 /\ 0 <= doy_of_doe doe <= 365 /\
  0 <= mp_of_doe doe <= 11 /\ 1 <= day_of z <= 31.
Proof.
  intros doe. pose proof (doe_range z) as Hr.
  pose proof (all_below_spec _ _ doe_ok_all doe) as H.
  specialize (H Hr).
  unfold doe_ok in H.
  change (doe - (365 * yoe_of_doe doe + yoe_of_doe doe / 4
                 - yoe_of_doe doe / 100)) with (doy_of_doe doe) in H.
  change ((5 * doy_of_doe doe + 2) / 153) with (mp_of_doe doe) in H.
  repeat rewrite andb_true_iff in H.
  repeat rewrite Z.leb_le in H.
  unfold day_of. fold doe. lia.
Qed.

Lemma month_range (z : Z) : 1 <= month_of z <= 12.
Proof.
  pose proof (doe_facts z) as (_ & _ & Hmp & _).
  unfold month_of. destruct (Z.ltb_spec (mp_of_doe (doe_of z)) 10); lia.
Qed.

Lemma day_range (z : Z) : 1 <= day_of z <= 31.
Proof. apply (doe_facts z). Qed.

(** Converting a day number to a civil date and back is the identity. *)
Lemma days_from_civil_of_day (z : Z) :
  days_from_civil (year_of z) (month_of z) (day_of z) = z.
Proof.
  pose proof (doe_facts z) as (Hyoe & Hdoy & Hmp & _).
  unfold days_from_civil, year_of, day_of.
  set (doe := doe_of z) in *. set (era := era_of z).
  assert (Hz : z + 719468 = 146097 * era + doe).
  { unfold era, doe, era_of, doe_of. apply Z.div_mod. lia. }
  set (yoe := yoe_of_doe doe) in *.
  set (mp := mp_of_doe doe) in *.
  assert (Hmo : month_of z = if mp <? 10 then mp + 3 else mp - 9)
    by reflexivity.
  assert (Hle : (month_of z <=? 2) = negb (mp <? 10)).
  { rewrite Hmo. destruct (Z.ltb_spec mp 10); cbn [negb].
    - apply Z.leb_gt. lia.
    - apply Z.leb_le. lia. }
  rewrite Hle, Hmo.
  assert (Hm : (if negb (mp <? 10)
                then (if mp <? 10 then mp + 3 else mp - 9) + 9
                else (if mp <? 10 then mp + 3 else mp - 9) - 3) = mp).
  { destruct (mp <? 10); cbn [negb]; lia. }
  rewrite Hm.
  assert (Hy : (if negb (mp <? 10)
                then yoe + 400 * era + (if negb (mp <? 10) then 1 else 0) - 1
                else yoe + 400 * era + (if negb (mp <? 10) then 1 else 0))
               = yoe + era * 400).
  { destruct (mp <? 10); cbn [negb]; lia. }
  rewrite Hy.
  unfold doy_of_doe. fold yoe.
  replace ((yoe + era * 400) / 4) with (yoe / 4 + era * 100)
    by (replace (yoe + era * 400) with (yoe + (era * 100) * 4) by lia;
        rewrite Z.div_add by lia; reflexivity).
  replace ((yoe + era * 400) / 100) with (yoe / 100 + era * 4)
    by (replace (yoe + era * 400) with (yoe + (era * 4) * 100) by lia;
        rewrite Z.div_add by lia; reflexivity).
  replace ((yoe + era * 400) / 400) with era
    by (rewrite Z.div_add by lia; rewrite Z.div_small by lia; lia).
  lia.
Qed.

End CivilFacts.

Module DecimalFacts.
Import Decimal.

Lemma digit_val_digit (k : Z) : 0 <= k <= 9 -> digit_val (digit k) = Some k.
Proof.
  intros Hk.
  assert (H : k = 0 \/ k = 1 \/ k = 2 \/ k = 3 \/ k = 4 \/ k = 5 \/ k = 6
              \/ k = 7 \/ k = 8 \/ k = 9) by lia.
  repeat (destruct H as [->|H]; [reflexivity|]). subst k. reflexivity.
Qed.

Lemma pad2_all :
  all_below 100 (fun n => String.eqb (pad2 n) (text2 n)) = true.
Proof. vm_compute. reflexivity. Qed.

Lemma pad2_text2 (n : Z) : 0 <= n <= 99 -> pad2 n = text2 n.
Proof.
  intros Hn. apply String.eqb_eq.
  apply (all_below_spec _ _ pad2_all n). lia.
Qed.

Lemma itoa_all :
  all_below 10000
    (fun n => (n <? 1000) || String.eqb (itoa n) (text4 n)) = true.
Proof. vm_compute. reflexivity. Qed.

Lemma itoa_text4 (n : Z) : 1000 <= n <= 9999 -> itoa n = text4 n.
Proof.
  intros Hn. apply String.eqb_eq.
  pose proof (all_below_spec _ _ itoa_all n ltac:(lia)) as H.
  cbv beta in H. apply orb_true_iff in H. destruct H as [H|H].
  - apply Z.ltb_lt in H. lia.
  - exact H.
Qed.

Lemma num2_digits (x y : Z) :
  0 <= x <= 9 -> 0 <= y <= 9 -> num2 (digit x) (digit y) = Some (10 * x + y).
Proof.
  intros Hx Hy. unfold num2.
  rewrite (digit_val_digit x Hx), (digit_val_digit y Hy). reflexivity.
Qed.

Lemma num2_text2 (n : Z) :
  0 <= n <= 99 -> num2 (digit (n / 10)) (digit (n mod 10)) = Some n.
Proof.
  intros Hn. rewrite num2_digits.
  - f_equal. pose proof (Z.div_mod n 10). lia.
  - split; [apply Z.div_pos; lia|].
    apply Z.lt_succ_r. apply Z.div_lt_upper_bound; lia.
  - pose proof (Z.mod_pos_bound n 10). lia.
Qed.

Lemma num4_text4 (n : Z) :
  0 <= n <= 9999 ->
  num4 (digit (n / 1000)) (digit (n / 100 mod 10))
       (digit (n / 10 mod 10)) (digit (n mod 10)) = Some n.
Proof.
  intros Hn. unfold num4.
  assert (H100 : 0 <= n / 100 <= 99)
    by (Z.to_euclidean_division_equations; lia).
  assert (Hhi : n / 1000 = n / 100 / 10)
    by (Z.to_euclidean_division_equations; lia).
  assert (Hlo : n / 10 mod 10 = n mod 100 / 10)
    by (Z.to_euclidean_division_equations; lia).
  assert (Hlo' : n mod 10 = n mod 100 mod 10)
    by (Z.to_euclidean_division_equations; lia).
  rewrite Hhi, Hlo, Hlo'.
  rewrite (num2_text2 (n / 100) H100).
  rewrite (num2_text2 (n mod 100))
    by (pose proof (Z.mod_pos_bound n 100); lia).
  f_equal. pose proof (Z.div_mod n 100). lia.
Qed.

End DecimalFacts.

Module XDateFacts.
Import Civil CivilFacts Decimal DecimalFacts XDate.

Lemma read_fresh (h : store) (v : value) : read (List.length h) (h ++ [v]) = v.
Proof. unfold read. rewrite app_nth2 by lia. rewrite Nat.sub_diag. reflexivity. Qed.

Lemma write_fresh (h : store) (v w : value) :
  write (List.length h) w (h ++ [v]) = h ++ [w].
Proof. induction h as [|x t IH]; simpl; [reflexivity|]. now rewrite IH. Qed.

Lemma read_old (h : store) (v : value) (l : ref) :
  (l < List.length h)%nat -> read l (h ++ [v]) = read l h.
Proof. intros Hl. unfold read. now rewrite app_nth1. Qed.

Lemma canonicalb_spec (z : Z) : canonicalb z = true <-> canonical z.
Proof.
  unfold canonicalb, canonical.
  rewrite andb_true_iff, !Z.leb_le. reflexivity.
Qed.

Lemma civil_year_range (y m d : Z) :
  1 <= m <= 12 -> 1 <= d <= 31 ->
  min_day <= days_from_civil y m d <= max_day -> 1000 <= y <= 9999.
Proof.
  intros Hm Hd. unfold days_from_civil, min_day, max_day.
  destruct (Z.leb_spec m 2); intros Hr;
    Z.to_euclidean_division_equations; lia.
Qed.

(** Every day from 1000-01-01 to 9999-12-31 is canonical. *)
Lemma in_range_canonical (z : Z) : in_range z -> canonical z.
Proof.
  intros Hr. unfold canonical.
  apply (civil_year_range _ (month_of z) (day_of z)).
  - apply month_range.
  - apply day_range.
  - rewrite days_from_civil_of_day. exact Hr.
Qed.

Lemma of_fields_civil (z : Z) :
  canonical z -> of_fields (year_of z) (month_of z) (day_of z) = z.
Proof.
  intros Hc. unfold of_fields.
  pose proof (month_range z) as Hm.
  destruct (Z.leb_spec (year_of z) 99) as [H|_]; [unfold canonical in Hc; lia|].
  replace ((month_of z - 1) / 12) with 0
    by (symmetry; apply Z.div_small; lia).
  rewrite Z.mod_small by lia.
  rewrite <- (days_from_civil_of_day z) at 4.
  unfold days_from_civil.
  replace (month_of z - 1 + 1) with (month_of z) by lia.
  rewrite Z.add_0_r. lia.
Qed.

Lemma format_canonical (z : Z) :
  canonical z ->
  format (Some z)
  = (text4 (year_of z) ++ "-" ++ text2 (month_of z) ++ "-"
     ++ text2 (day_of z))%string.
Proof.
  intros Hc. unfold format, getFullYear, getMonth, getDate.
  pose proof (month_range z). pose proof (day_range z).
  replace (month_of z - 1 + 1) with (month_of z) by lia.
  rewrite itoa_text4 by exact Hc.
  rewrite !pad2_text2 by lia. reflexivity.
Qed.

(** Reading back the text of a canonical date gives the date. *)
Lemma parse_format (z : Z) : canonical z -> parse (format (Some z)) = Some z.
Proof.
  intros Hc. rewrite format_canonical by exact Hc.
  pose proof (month_range z). pose proof (day_range z).
  unfold text4, text2. cbn [append parse].
  change (Ascii.eqb "-" "-") with true. cbn [andb].
  rewrite num4_text4 by (unfold canonical in Hc; lia).
  rewrite !num2_text2 by lia.
  now rewrite of_fields_civil.
Qed.

(** The text of a canonical date is a fixed point of parse-then-format. *)
Lemma format_parse_format (z : Z) :
  canonical z -> format (parse (format (Some z))) = format (Some z).
Proof. intros Hc. now rewrite parse_format. Qed.

(** A few dates, among them the ends of February in leap and common
    years. *)
Example format_epoch : format (Some 0) = "1970-01-01"%string.
Proof. vm_compute. reflexivity. Qed.

Example format_leap_day :
  format (Some 19782) = "2024-02-29"%string
  /\ format (Some 19783) = "2024-03-01"%string
  /\ format (parse "2000-02-29") = "2000-02-29"%string
  /\ format (parse "1900-02-29") = "1900-03-01"%string.
Proof. vm_compute. repeat split. Qed.

Example weekday_samples :
  option_map weekday_of (parse "2024-03-15") = Some 5
  /\ option_map weekday_of (parse "2024-03-10") = Some 0
  /\ option_map weekday_of (parse "1000-01-01") = Some 3
  /\ parse "1000-01-01" = Some min_day
  /\ parse "9999-12-31" = Some max_day.
Proof. vm_compute. repeat split. Qed.

End XDateFacts.

Module WeekCalendarFacts.
Import Civil CivilFacts XDate XDateFacts WeekCalendar.

Lemma getDate_run (date : string) (firstDay weekIndex : Z) (h : store) :
  getDate date firstDay weekIndex h
  = (pageText date firstDay weekIndex,
     h ++ [pageValue date firstDay weekIndex]).
Proof.
  unfold getDate, bind, new, getDay, ret, addDays, addWeeks,
    toMarkingFormat, pageText, pageValue, pageDay, weekStart, wrappedDay.
  rewrite read_fresh.
  destruct (parse date) as [z|]; cbn [option_map].
  - destruct (Z.eqb_spec weekIndex 0) as [->|Hne].
    + rewrite read_fresh, write_fresh, read_fresh.
      replace (z + 7 * 0) with z by lia. reflexivity.
    + rewrite read_fresh.
      destruct ((weekday_of z <? firstDay) && (firstDay >? 0));
        cbn [option_map]; rewrite !write_fresh, !read_fresh; reflexivity.
  - destruct (weekIndex =? 0).
    + rewrite read_fresh, write_fresh, read_fresh. reflexivity.
    + rewrite read_fresh. cbn [option_map].
      rewrite !write_fresh, !read_fresh. reflexivity.
Qed.

Lemma getDatesArray_loop_run (date : string) (firstDay : Z) (n : nat) :
  forall (index : Z) (array : list string) (h : store),
    getDatesArray_loop n date firstDay index array h
    = (array ++ map (pageText date firstDay) (Zseq index n),
       h ++ map (pageValue date firstDay) (Zseq index n)).
Proof.
  induction n as [|k IH]; intros index array h.
  - simpl. unfold ret. now rewrite !app_nil_r.
  - cbn [getDatesArray_loop]. unfold bind at 1.
    rewrite getDate_run, IH. cbn [Zseq map].
    now rewrite <- !app_assoc.
Qed.

(** The array returned by [getDatesArray], whatever the store it runs in. *)
Lemma getDatesArray_run (date : string) (firstDay numberOfPages : Z)
    (h : store) :
  fst (getDatesArray date firstDay numberOfPages h)
  = map (pageText date firstDay)
      (Zseq (- numberOfPages) (Z.to_nat (2 * numberOfPages + 1))).
Proof. unfold getDatesArray. now rewrite getDatesArray_loop_run. Qed.

Lemma window_eq (date : string) (firstDay numberOfPages : Z) :
  window date firstDay numberOfPages
  = map (pageText date firstDay)
      (Zseq (- numberOfPages) (Z.to_nat (2 * numberOfPages + 1))).
Proof. unfold window, eval. apply getDatesArray_run. Qed.

Lemma window_length (date : string) (firstDay numberOfPages : Z) :
  0 <= numberOfPages ->
  Z.of_nat (List.length (window date firstDay numberOfPages))
  = 2 * numberOfPages + 1.
Proof.
  intros Hn. rewrite window_eq, length_map, Zseq_length. lia.
Qed.

(** The entry at index [numberOfPages + k] is the text of page [k]. *)
Lemma getDatesArray_nth (date : string) (firstDay numberOfPages k : Z)
    (h : store) :
  - numberOfPages <= k <= numberOfPages ->
  nth_error (fst (getDatesArray date firstDay numberOfPages h))
    (Z.to_nat (numberOfPages + k))
  = Some (pageText date firstDay k).
Proof.
  intros Hk. rewrite getDatesArray_run.
  rewrite nth_error_map.
  rewrite (nth_error_nth' _ 0) by (rewrite Zseq_length; lia).
  rewrite Zseq_nth by lia. cbn [option_map].
  do 2 f_equal. lia.
Qed.

Lemma window_nth (date : string) (firstDay numberOfPages k : Z) :
  - numberOfPages <= k <= numberOfPages ->
  nth_error (window date firstDay numberOfPages)
    (Z.to_nat (numberOfPages + k))
  = Some (pageText date firstDay k).
Proof. apply getDatesArray_nth. Qed.

Lemma pageText_center (date : string) (firstDay : Z) :
  pageText date firstDay 0 = format (parse date).
Proof.
  unfold pageText, pageValue, pageDay. cbn [Z.eqb].
  now destruct (parse date).
Qed.

Lemma pageText_off_center (date : string) (firstDay k z : Z) :
  parse date = Some z -> k <> 0 ->
  pageText date firstDay k = format (Some (weekStart z firstDay + 7 * k)).
Proof.
  intros Hp Hk. unfold pageText, pageValue, pageDay. rewrite Hp.
  cbn [option_map]. destruct (Z.eqb_spec k 0); [contradiction|reflexivity].
Qed.

(** ** The week of a day *)

Lemma weekday_range (z : Z) : 0 <= weekday_of z <= 6.
Proof. unfold weekday_of. pose proof (Z.mod_pos_bound (z + 4) 7). lia. Qed.

Lemma wrappedDay_cases (z firstDay : Z) :
  (weekday_of z < firstDay /\ 0 < firstDay
   /\ wrappedDay z firstDay = 7 + weekday_of z)
  \/ ((firstDay <= weekday_of z \/ firstDay <= 0)
      /\ wrappedDay z firstDay = weekday_of z).
Proof.
  unfold wrappedDay.
  destruct (Z.ltb_spec (weekday_of z) firstDay);
    destruct (Z.gtb_spec firstDay 0); cbn [andb]; lia.
Qed.

(** With [firstDay] a day of the week, [weekStart] is at most six days
    back. *)
Lemma dayInWeek_range (z firstDay : Z) :
  0 <= firstDay <= 6 -> 0 <= dayInWeek z firstDay <= 6.
Proof.
  intros Hf. unfold dayInWeek, weekStart.
  pose proof (weekday_range z).
  destruct (wrappedDay_cases z firstDay) as [(? & ? & ->)|(? & ->)]; lia.
Qed.

(** ... and falls on [firstDay]. *)
Lemma weekStart_weekday (z firstDay : Z) :
  0 <= firstDay <= 6 -> weekday_of (weekStart z firstDay) = firstDay.
Proof.
  intros Hf. unfold weekStart.
  pose proof (weekday_range z) as Hw.
  destruct (wrappedDay_cases z firstDay) as [(? & ? & ->)|(? & ->)];
    unfold weekday_of in *.
  - replace (z + (firstDay - (7 + (z + 4) mod 7)) + 4)
      with (firstDay + ((z + 4) - (z + 4) mod 7) + (-1) * 7) by lia.
    rewrite Z.mod_add by lia.
    rewrite (Z.div_mod (z + 4) 7) at 1 by lia.
    replace (firstDay + (7 * ((z + 4) / 7) + (z + 4) mod 7 - (z + 4) mod 7))
      with (firstDay + ((z + 4) / 7) * 7) by lia.
    rewrite Z.mod_add by lia. apply Z.mod_small. lia.
  - replace (z + (firstDay - (z + 4) mod 7) + 4)
      with (firstDay + ((z + 4) - (z + 4) mod 7)) by lia.
    rewrite (Z.div_mod (z + 4) 7) at 1 by lia.
    replace (firstDay + (7 * ((z + 4) / 7) + (z + 4) mod 7 - (z + 4) mod 7))
      with (firstDay + ((z + 4) / 7) * 7) by lia.
    rewrite Z.mod_add by lia. apply Z.mod_small. lia.
Qed.

Lemma weekStart_bounds (z firstDay : Z) :
  0 <= firstDay <= 6 ->
  weekStart z firstDay <= z < weekStart z firstDay + 7.
Proof.
  intros Hf. pose proof (dayInWeek_range z firstDay Hf) as H.
  unfold dayInWeek in H. lia.
Qed.

(** ** Reading the entries back *)

Lemma pageDay_bounds (z firstDay numberOfPages k : Z) :
  0 <= firstDay <= 6 -> - numberOfPages <= k <= numberOfPages ->
  z - 7 * numberOfPages - 6 <= pageDay z firstDay k <= z + 7 * numberOfPages.
Proof.
  intros Hf Hk. unfold pageDay.
  pose proof (weekStart_bounds z firstDay Hf).
  destruct (Z.eqb_spec k 0); lia.
Qed.

Lemma parse_pageText (date : string) (z firstDay numberOfPages k : Z) :
  parse date = Some z -> 0 <= firstDay <= 6 ->
  - numberOfPages <= k <= numberOfPages ->
  min_day <= z - 7 * numberOfPages - 6 -> z + 7 * numberOfPages <= max_day ->
  parse (pageText date firstDay k) = Some (pageDay z firstDay k).
Proof.
  intros Hp Hf Hk Hlo Hhi. unfold pageText, pageValue. rewrite Hp.
  cbn [option_map]. apply parse_format. apply in_range_canonical.
  pose proof (pageDay_bounds z firstDay numberOfPages k Hf Hk).
  unfold in_range. lia.
Qed.

Lemma pageDay_gap (z firstDay numberOfPages i : Z) :
  pageDay z firstDay (i + 1 - numberOfPages)
  - pageDay z firstDay (i - numberOfPages)
  = gap z firstDay numberOfPages i.
Proof.
  unfold pageDay, gap, dayInWeek.
  destruct (Z.eqb_spec (i + 1 - numberOfPages) 0);
    destruct (Z.eqb_spec (i - numberOfPages) 0);
    destruct (Z.eqb_spec (i + 1) numberOfPages);
    destruct (Z.eqb_spec i numberOfPages); lia.
Qed.

Lemma gap_positive (z firstDay numberOfPages i : Z) :
  0 <= firstDay <= 6 -> 0 < gap z firstDay numberOfPages i.
Proof.
  intros Hf. pose proof (dayInWeek_range z firstDay Hf). unfold gap.
  destruct (i + 1 =? numberOfPages); [lia|].
  destruct (i =? numberOfPages); lia.
Qed.

(** The text of a canonical date is the center of the window built on it. *)
Lemma window_center_canonical (d : string) (firstDay numberOfPages : Z) :
  canonicalText d -> 0 <= numberOfPages ->
  nth_error (window d firstDay numberOfPages) (Z.to_nat numberOfPages)
  = Some d.
Proof.
  intros (z & Hc & ->) Hn.
  replace numberOfPages with (numberOfPages + 0) at 2 by lia.
  rewrite window_nth by lia. rewrite pageText_center.
  now rewrite format_parse_format.
Qed.

(** Every page of a window built on a date well inside the canonical range
    holds the text of a canonical date. *)
Lemma window_items_canonical (anchor : string) (z firstDay numberOfPages : Z) :
  parse anchor = Some z -> 0 <= firstDay <= 6 ->
  min_day <= z - 7 * numberOfPages - 6 -> z + 7 * numberOfPages <= max_day ->
  forall (i : Z) (d : string),
    item_at (window anchor firstDay numberOfPages) i = Some d ->
    canonicalText d.
Proof.
  intros Hp Hf Hlo Hhi i d Hd. unfold item_at in Hd.
  destruct (Z.ltb_spec i 0) as [|Hi]; [discriminate|].
  assert (Hlen : (Z.to_nat i
                  < List.length (window anchor firstDay numberOfPages))%nat)
    by (apply nth_error_Some; rewrite Hd; discriminate).
  rewrite window_eq, length_map, Zseq_length in Hlen.
  assert (Hk : - numberOfPages <= i - numberOfPages <= numberOfPages) by lia.
  pose proof (window_nth anchor firstDay numberOfPages _ Hk) as Hn.
  replace (numberOfPages + (i - numberOfPages)) with i in Hn by lia.
  rewrite Hn in Hd. inversion Hd; subst d.
  exists (pageDay z firstDay (i - numberOfPages)). split.
  - apply in_range_canonical.
    pose proof (pageDay_bounds z firstDay numberOfPages _ Hf Hk).
    unfold in_range. lia.
  - unfold pageText, pageValue. now rewrite Hp.
Qed.

End WeekCalendarFacts.

Module ExpandableCalendarFacts.
Import ExpandableCalendar.

Lemma geb_true (a b : Z) : b <= a -> (a >=? b) = true.
Proof. intros H. rewrite Z.geb_leb. now apply Z.leb_le. Qed.

Lemma geb_false (a b : Z) : a < b -> (a >=? b) = false.
Proof. intros H. rewrite Z.geb_leb. now apply Z.leb_gt. Qed.

Section Settle.

Variables knobHeight screenHeight screenWidth : Z.
Variable p : Props.

Lemma render_position (prev st : State) :
  position (render knobHeight screenHeight screenWidth p prev st)
  = position st.
Proof. reflexivity. Qed.

Lemma render_toggled (prev st : State) :
  toggled (render knobHeight screenHeight screenWidth p prev st)
  = toggled st.
Proof. reflexivity. Qed.

(** The position committed when a spring settles. *)
Lemma springEnd_position (st : State) (s : Spring) :
  spring st = Some s ->
  position (springEnd knobHeight screenHeight screenWidth p st)
  = (if _height st =? cb_closedHeight s then CLOSED else OPEN).
Proof.
  intros Hs. unfold springEnd. rewrite Hs.
  destruct (Positions_eqb _ _); reflexivity.
Qed.

(** The flag passed to [onCalendarToggled] when a spring settles. *)
Lemma springEnd_toggled (st : State) (s : Spring) :
  spring st = Some s ->
  toggled (springEnd knobHeight screenHeight screenWidth p st)
  = toggled st ++ [cb_isOpen s].
Proof.
  intros Hs. unfold springEnd. rewrite Hs.
  destruct (Positions_eqb _ _); reflexivity.
Qed.

(** What [bounceToPosition] leaves in flight. *)
Lemma bounceToPosition_spring (arg : option Z) (st : State) :
  let st' := bounceToPosition knobHeight p arg st in
  spring st'
  = Some {| toValue := _height st';
            cb_isOpen := _height st' >=? bounceThreshold knobHeight p st;
            cb_closedHeight := closedHeight knobHeight p st |}.
Proof. reflexivity. Qed.

Lemma bounceToPosition_height (arg : option Z) (st : State) :
  _height (bounceToPosition knobHeight p arg st)
  = (let toValue := match arg with Some v => v | None => 0 end in
     if toValue =? 0
     then (if _height st >=? bounceThreshold knobHeight p st
           then openHeight st else closedHeight knobHeight p st)
     else toValue).
Proof. reflexivity. Qed.

End Settle.

End ExpandableCalendarFacts.
(* ================================================================== *)
(** * Part III: the properties of the specification *)
(* ================================================================== *)

Module WeekCalendarSpec.
Import Civil CivilFacts XDate XDateFacts WeekCalendar WeekCalendarFacts.
Local Open Scope string_scope.

(** ** The center of the window *)

(** C1, as the specification words it, fails: for [firstDay = 0] and the
    anchor 2024-03-15 (day 19797, a Friday, whose week starts on
    2024-03-10), the entry at the center index of the window is
    2024-03-15, not 2024-03-10. *)
Lemma C1_center_not_week_start :
  parse "2024-03-15" = Some 19797 /\ weekday_of 19797 = 5 /\
  format (Some (weekStart 19797 0)) = "2024-03-10" /\
  nth_error (fst (getDatesArray "2024-03-15" 0 NUMBER_OF_PAGES []))
    (Z.to_nat NUMBER_OF_PAGES) = Some "2024-03-15" /\
  nth_error (fst (getDatesArray "2024-03-15" 0 NUMBER_OF_PAGES []))
    (Z.to_nat NUMBER_OF_PAGES) <> Some "2024-03-10".
Proof.
  repeat split; try (vm_compute; reflexivity).
  vm_compute. discriminate.
Qed.

(** C1 (amended): the entry at the center index (index [radius], week
    offset 0) of the window built by [getDatesArray] is the anchor date
    itself, left as it is (for an anchor in canonical text, that very
    text); the entry [k] pages away from the center, for
    [k <> 0], is the start of the anchor's week plus [7 * k] days.  For a
    [firstDay] in 0..6 that start of week falls on [firstDay] and is at
    most six days before the anchor. *)
Theorem C1_center_is_anchor (anchor : string) (firstDay radius z : Z)
    (h : store) :
  parse anchor = Some z -> 0 <= radius ->
  let w := fst (getDatesArray anchor firstDay radius h) in
  nth_error w (Z.to_nat radius) = Some (format (Some z))
  /\ (canonicalText anchor -> nth_error w (Z.to_nat radius) = Some anchor)
  /\ (forall k, - radius <= k <= radius -> k <> 0 ->
        nth_error w (Z.to_nat (radius + k))
        = Some (format (Some (weekStart z firstDay + 7 * k))))
  /\ (0 <= firstDay <= 6 ->
        weekday_of (weekStart z firstDay) = firstDay
        /\ weekStart z firstDay <= z < weekStart z firstDay + 7).
Proof.
  intros Hp Hr w. subst w.
  assert (Hcenter :
            nth_error (fst (getDatesArray anchor firstDay radius h))
              (Z.to_nat radius) = Some (format (Some z))).
  { replace radius with (radius + 0) at 2 by lia.
    rewrite getDatesArray_nth by lia.
    now rewrite pageText_center, Hp. }
  split; [exact Hcenter|]. split; [|split].
  - intros (z' & Hc & ->). rewrite Hcenter.
    rewrite (parse_format z' Hc) in Hp. now inversion Hp.
  - intros k Hk Hk0. rewrite getDatesArray_nth by lia.
    now rewrite (pageText_off_center anchor firstDay k z Hp Hk0).
  - intros Hf. split.
    + now apply weekStart_weekday.
    + now apply weekStart_bounds.
Qed.

(** The amended C1 at [firstDay = 0], anchor 2024-03-15 and the radius of
    the component: the center is 2024-03-15, its neighbours are the Sundays
    2024-03-03 and 2024-03-17. *)
Lemma C1_center_is_anchor_witness :
  parse "2024-03-15" = Some 19797 /\ 0 <= 50 /\
  let w := fst (getDatesArray "2024-03-15" 0 50 []) in
  nth_error w 50 = Some "2024-03-15"
  /\ nth_error w 49 = Some "2024-03-03"
  /\ nth_error w 51 = Some "2024-03-17".
Proof.
  assert (Hp : parse "2024-03-15" = Some 19797) by (vm_compute; reflexivity).
  split; [exact Hp|]. split; [lia|].
  destruct (C1_center_is_anchor "2024-03-15" 0 50 19797 [] Hp ltac:(lia))
    as (Hc & _ & Hk & _).
  split; [exact Hc|]. split.
  - exact (Hk (-1) ltac:(lia) ltac:(lia)).
  - exact (Hk 1 ltac:(lia) ltac:(lia)).
Defined.

(** ** The shape of the window *)

(** C2, as the specification words it, fails: in the window of radius 1
    on 2024-03-15 with [firstDay = 0], which is 2024-03-03, 2024-03-15,
    2024-03-17, the first two entries are 12 days apart. *)
Lemma C2_not_every_seven_days :
  fst (getDatesArray "2024-03-15" 0 1 [])
  = ["2024-03-03"; "2024-03-15"; "2024-03-17"]
  /\ daysBetween "2024-03-03" "2024-03-15" = Some 12
  /\ ~ everySevenDays (fst (getDatesArray "2024-03-15" 0 1 [])).
Proof.
  split; [vm_compute; reflexivity|]. split; [vm_compute; reflexivity|].
  intros H.
  specialize (H 0%nat "2024-03-03" "2024-03-15" eq_refl eq_refl).
  vm_compute in H. discriminate.
Qed.

(** C2 (amended): for an anchor on day [z], a [firstDay] in 0..6 and a
    radius such that the whole window lies between 1000-01-01 and
    9999-12-31, [getDatesArray] returns exactly [2 * radius + 1] dates in
    strictly increasing order.  Two consecutive entries are 7 days apart,
    except the two pairs that contain the center entry: with [j] the
    number of days from the start of the anchor's week to the anchor, the
    center is [7 + j] days after the entry before it and [7 - j] days
    before the entry after it. *)
Theorem C2_window_shape (anchor : string) (firstDay radius z : Z)
    (h : store) :
  parse anchor = Some z -> 0 <= radius -> 0 <= firstDay <= 6 ->
  min_day <= z - 7 * radius - 6 -> z + 7 * radius <= max_day ->
  let w := fst (getDatesArray anchor firstDay radius h) in
  Z.of_nat (List.length w) = 2 * radius + 1
  /\ 0 <= dayInWeek z firstDay <= 6
  /\ forall i, 0 <= i < 2 * radius ->
       exists x y,
         nth_error w (Z.to_nat i) = Some x
         /\ nth_error w (Z.to_nat (i + 1)) = Some y
         /\ daysBetween x y = Some (gap z firstDay radius i)
         /\ 0 < gap z firstDay radius i
         /\ (i + 1 <> radius -> i <> radius -> gap z firstDay radius i = 7)
         /\ (i + 1 = radius ->
             gap z firstDay radius i = 7 + dayInWeek z firstDay)
         /\ (i = radius ->
             gap z firstDay radius i = 7 - dayInWeek z firstDay).
Proof.
  intros Hp Hr Hf Hlo Hhi w. subst w. split; [|split].
  - rewrite getDatesArray_run, length_map, Zseq_length. lia.
  - now apply dayInWeek_range.
  - intros i Hi.
    exists (pageText anchor firstDay (i - radius)),
           (pageText anchor firstDay (i + 1 - radius)).
    split; [|split; [|split; [|split; [|split; [|split]]]]].
    + replace i with (radius + (i - radius)) at 1 by lia.
      apply getDatesArray_nth. lia.
    + replace (i + 1) with (radius + (i + 1 - radius)) at 1 by lia.
      apply getDatesArray_nth. lia.
    + unfold daysBetween.
      rewrite (parse_pageText anchor z firstDay radius (i - radius))
        by (assumption || lia).
      rewrite (parse_pageText anchor z firstDay radius (i + 1 - radius))
        by (assumption || lia).
      now rewrite pageDay_gap.
    + now apply gap_positive.
    + intros H1 H2. unfold gap.
      destruct (Z.eqb_spec (i + 1) radius); [contradiction|].
      destruct (Z.eqb_spec i radius); [contradiction|reflexivity].
    + intros H1. unfold gap.
      destruct (Z.eqb_spec (i + 1) radius); [reflexivity|contradiction].
    + intros H1. unfold gap.
      destruct (Z.eqb_spec (i + 1) radius); [lia|].
      destruct (Z.eqb_spec i radius); [reflexivity|contradiction].
Qed.

(** The amended C2 on the window of the component for 2024-03-15: 101
    entries, the center 12 days after the entry before it and 2 days
    before the entry after it. *)
Lemma C2_window_shape_witness :
  Z.of_nat (List.length (fst (getDatesArray "2024-03-15" 0 50 []))) = 101
  /\ dayInWeek 19797 0 = 5
  /\ gap 19797 0 50 48 = 7
  /\ gap 19797 0 50 49 = 12
  /\ gap 19797 0 50 50 = 2.
Proof.
  assert (Hp : parse "2024-03-15" = Some 19797) by (vm_compute; reflexivity).
  destruct (C2_window_shape "2024-03-15" 0 50 19797 [] Hp
              ltac:(lia) ltac:(lia)
              ltac:(unfold min_day; lia) ltac:(unfold max_day; lia))
    as (Hlen & _ & Hgap).
  split; [exact Hlen|]. split; [vm_compute; reflexivity|].
  destruct (Hgap 48 ltac:(lia)) as (_ & _ & _ & _ & _ & _ & H48 & _ & _).
  destruct (Hgap 49 ltac:(lia)) as (_ & _ & _ & _ & _ & _ & _ & H49 & _).
  destruct (Hgap 50 ltac:(lia)) as (_ & _ & _ & _ & _ & _ & _ & _ & H50).
  split; [apply H48; lia|]. split.
  - rewrite (H49 eq_refl). vm_compute. reflexivity.
  - rewrite (H50 eq_refl). vm_compute. reflexivity.
Defined.

(** Why [firstDay] is taken in 0..6: for [firstDay = -2] the window of
    radius 1 on 2024-03-15 repeats its center. *)
Example getDatesArray_firstDay_negative :
  fst (getDatesArray "2024-03-15" (-2) 1 [])
  = ["2024-03-01"; "2024-03-15"; "2024-03-15"].
Proof. vm_compute. reflexivity. Qed.

(** ** Determinism *)

(** C9: [getDatesArray] is a function of its arguments alone.  Run in any
    two stores of date objects, two calls with the same anchor date,
    [firstDay] and radius return the same sequence; a call only adds the
    objects it creates to the store and changes none that was there. *)
Theorem C9_getDatesArray_deterministic (date : string)
    (firstDay numberOfPages : Z) (h1 h2 : store) :
  fst (getDatesArray date firstDay numberOfPages h1)
  = fst (getDatesArray date firstDay numberOfPages h2)
  /\ exists fresh,
       snd (getDatesArray date firstDay numberOfPages h1) = (h1 ++ fresh)%list.
Proof.
  split.
  - now rewrite !getDatesArray_run.
  - unfold getDatesArray. rewrite getDatesArray_loop_run. cbn [snd].
    eexists. reflexivity.
Qed.

(** ** Publishing the page and the echo of that publication *)

(** C5: [onPageChange] publishes the date of the page to the shared
    context, tagged [WEEK_SCROLL], when the page change was made by the
    user, and that is the only thing it does; when it was not made by the
    user it does nothing.  The effect that follows a change of the context
    date does nothing when that change is tagged [WEEK_SCROLL]: no scroll,
    no new window.  (Under any other tag it asks for one scroll, and still
    builds no window.) *)
Theorem C5_publish_and_echo (firstDay containerWidth pageIndex : Z)
    (sameWeek : string -> string -> Z -> bool) (ctx : Context) (st : State) :
  (let st' := onPageChange pageIndex true st in
   setDateCalls st'
   = (setDateCalls st ++ [(item_at (items st) pageIndex, WEEK_SCROLL)])%list
   /\ items st' = items st /\ scrollCalls st' = scrollCalls st
   /\ setItemsCalls st' = setItemsCalls st)
  /\ (forall d, 0 <= pageIndex ->
        nth_error (items st) (Z.to_nat pageIndex) = Some d ->
        item_at (items st) pageIndex = Some d)
  /\ onPageChange pageIndex false st = st
  /\ (updateSource ctx = WEEK_SCROLL ->
      dateEffect firstDay containerWidth sameWeek ctx st = st)
  /\ (updateSource ctx <> WEEK_SCROLL ->
      let st' := dateEffect firstDay containerWidth sameWeek ctx st in
      items st' = items st /\ setItemsCalls st' = setItemsCalls st
      /\ List.length (scrollCalls st') = S (List.length (scrollCalls st))).
Proof.
  split; [|split; [|split; [|split]]].
  - cbn. repeat split.
  - intros d Hp Hd. unfold item_at.
    destruct (Z.ltb_spec pageIndex 0); [lia|exact Hd].
  - reflexivity.
  - intros Hs. unfold dateEffect. rewrite Hs. reflexivity.
  - intros Hs. unfold dateEffect.
    destruct (updateSource ctx); try contradiction; cbn;
      (repeat split; rewrite length_app; cbn; lia).
Qed.

(** C5 on the window of 2024-03-15: a page change to index 51 made by the
    user publishes 2024-03-17, and the echo of that date leaves the
    component as it is. *)
Lemma C5_publish_and_echo_witness :
  let st := initialState 0 None
              {| date := "2024-03-15"; updateSource := DAY_PRESS |} in
  let st' := onPageChange 51 true st in
  let ctx := {| date := "2024-03-17"; updateSource := WEEK_SCROLL |} in
  setDateCalls st' = [(Some "2024-03-17", WEEK_SCROLL)]
  /\ updateSource ctx = WEEK_SCROLL
  /\ dateEffect 0 375 (fun _ _ _ => false) ctx st' = st'.
Proof.
  intros st st' ctx.
  destruct (C5_publish_and_echo 0 375 51 (fun _ _ _ => false) ctx st)
    as ((Hpub & _) & _ & _ & _).
  destruct (C5_publish_and_echo 0 375 51 (fun _ _ _ => false) ctx st')
    as (_ & _ & _ & Hecho & _).
  split; [|split].
  - fold st' in Hpub. rewrite Hpub. vm_compute. reflexivity.
  - reflexivity.
  - apply Hecho. reflexivity.
Defined.

(** ** Rebuilding the window near its edge *)

(** C6: the near-edge threshold handed to the list is
    [Math.round(NUMBER_OF_PAGES * 0.4)], that is 20 pages; and
    [reloadPages(pageIndex)], for a page holding a date, makes exactly one
    [setItems] call, whose window is [getDatesArray] of the date of that
    page and has that same date at its center index. *)
Theorem C6_reloadPages_recenters (firstDay pageIndex : Z) (st : State)
    (d : string) :
  item_at (items st) pageIndex = Some d -> canonicalText d ->
  onReachNearEdgeThreshold = 20
  /\ exists st',
       reloadPages firstDay pageIndex st = Some st'
       /\ setItemsCalls st' = S (setItemsCalls st)
       /\ items st' = fst (getDatesArray d firstDay NUMBER_OF_PAGES [])
       /\ Z.of_nat (List.length (items st')) = 2 * NUMBER_OF_PAGES + 1
       /\ item_at (items st') NUMBER_OF_PAGES = Some d
       /\ setDateCalls st' = setDateCalls st
       /\ scrollCalls st' = scrollCalls st.
Proof.
  intros Hd Hc. split; [vm_compute; reflexivity|].
  unfold reloadPages. rewrite Hd. eexists. split; [reflexivity|].
  cbn [setItems items setItemsCalls setDateCalls scrollCalls].
  split; [reflexivity|]. split; [reflexivity|].
  split; [|split; [|split; reflexivity]].
  - apply window_length. unfold NUMBER_OF_PAGES. lia.
  - unfold item_at. change (NUMBER_OF_PAGES <? 0)%Z with false. cbv iota.
    apply window_center_canonical; [exact Hc|unfold NUMBER_OF_PAGES; lia].
Qed.

(** C6 on the window of 2024-03-15, at the page [2 * 50 - 20 = 80] where
    the trailing threshold is reached: that page holds 2024-10-06, and the
    rebuilt window has 2024-10-06 at index 50. *)
Lemma C6_reloadPages_recenters_witness :
  let st := initialState 0 None
              {| date := "2024-03-15"; updateSource := DAY_PRESS |} in
  item_at (items st) (2 * NUMBER_OF_PAGES - onReachNearEdgeThreshold)
  = Some "2024-10-06"
  /\ exists st',
       reloadPages 0 80 st = Some st'
       /\ setItemsCalls st' = 1%nat
       /\ item_at (items st') 50 = Some "2024-10-06".
Proof.
  intros st.
  assert (Hd : item_at (items st) 80 = Some "2024-10-06")
    by (vm_compute; reflexivity).
  assert (Hc : canonicalText "2024-10-06").
  { exists 20002. split.
    - apply canonicalb_spec. vm_compute. reflexivity.
    - vm_compute. reflexivity. }
  split; [exact Hd|].
  destruct (C6_reloadPages_recenters 0 80 st "2024-10-06" Hd Hc)
    as (_ & st' & Hr & Hn & _ & _ & Hcenter & _).
  exists st'. split; [exact Hr|]. split; [exact Hn|exact Hcenter].
Defined.

End WeekCalendarSpec.

Module ExpandableCalendarSpec.
Import ExpandableCalendar ExpandableCalendarFacts.

(** ** The heights *)

(** C7, as the specification words it, fails for a vertical calendar: with
    [horizontal = false] on a 400 x 800 screen, a header of 78, five weeks
    and a knob of 24, the open height is 800, not [78 + 46 * 5 + 24]. *)
Lemma C7_open_height_vertical :
  let p := {| initialPosition := CLOSED; disablePan := false;
              hideKnobProp := None; openThreshold := 30;
              closeThreshold := 30; horizontal := false;
              numberOfDays := None |} in
  let st := onHeaderLayout 24 800 400 p 78 (mount 24 800 400 p 5) in
  headerHeight st = 78 /\ numberOfWeeks st = 5 /\ hideKnob p = false
  /\ getOpenHeight 24 800 400 p st = 800
  /\ getOpenHeight 24 800 400 p st
     <> headerHeight st + WEEK_HEIGHT * numberOfWeeks st
        + (if hideKnob p then 0 else 24).
Proof. vm_compute. repeat split; discriminate. Qed.

(** C7 (amended): for a horizontal calendar the open height is
    [headerHeight + 46 * numberOfWeeks + (knobHidden ? 0 : knobHeight)];
    for a vertical one it is the larger of the screen height and width.
    The closed height is
    [headerHeight + 46 + ((knobHidden or more than one day) ? 0 : knobHeight)]
    in both.  The knob is hidden when the [hideKnob] prop says so, or, that
    prop being absent, when more than one day is shown. *)
Theorem C7_derived_heights (knobHeight screenHeight screenWidth : Z)
    (p : Props) (st : State) :
  getOpenHeight knobHeight screenHeight screenWidth p st
  = (if horizontal p
     then headerHeight st + 46 * numberOfWeeks st
          + (if hideKnob p then 0 else knobHeight)
     else Z.max screenHeight screenWidth)
  /\ closedHeight knobHeight p st
     = headerHeight st + 46
       + (if hideKnob p || multiDay p then 0 else knobHeight)
  /\ (hideKnob p = true <->
      hideKnobProp p = Some true
      \/ (hideKnobProp p = None /\ exists n, numberOfDays p = Some n /\ 1 < n))
  /\ (multiDay p = true <-> exists n, numberOfDays p = Some n /\ 1 < n).
Proof.
  split; [|split; [|split]].
  - unfold getOpenHeight. now destruct (horizontal p).
  - reflexivity.
  - unfold hideKnob.
    destruct (hideKnobProp p) as [[|]|].
    + split; [intros _; now left|reflexivity].
    + split; [intros H; discriminate H|].
      intros [H|(H & _)]; discriminate H.
    + destruct (numberOfDays p) as [n|].
      * split.
        -- intros H. right. split; [reflexivity|]. exists n.
           apply andb_true_iff in H. destruct H as [_ H].
           apply Z.gtb_lt in H. split; [reflexivity|lia].
        -- intros [H|(_ & m & Hm & Hlt)]; [discriminate H|].
           inversion Hm; subst m.
           apply andb_true_iff. split.
           ++ apply negb_true_iff. apply Z.eqb_neq. lia.
           ++ apply Z.gtb_lt. lia.
      * split; [intros H; discriminate H|].
        intros [H|(_ & m & Hm & _)]; [discriminate H|discriminate Hm].
  - unfold multiDay. destruct (numberOfDays p) as [n|]; split.
    + intros H. exists n. apply Z.gtb_lt in H. split; [reflexivity|lia].
    + intros (m & Hm & Hlt). inversion Hm; subst. apply Z.gtb_lt. lia.
    + intros H; discriminate H.
    + intros (m & Hm & _). discriminate Hm.
Qed.

(** ** The pan gesture *)

(** C4: when the closed height is at most the open height, the height a
    gesture move produces lies between them, whatever the delta and the
    height the gesture started from; a move changes neither bound, so the
    live height stays within bounds along any sequence of moves. *)
Theorem C4_move_within_bounds (knobHeight : Z) (p : Props) (st : State)
    (dy : Z) :
  closedHeight knobHeight p st <= openHeight st ->
  let st' := handlePanResponderMove knobHeight p dy st in
  closedHeight knobHeight p st <= wrapperHeight st' <= openHeight st
  /\ closedHeight knobHeight p st' = closedHeight knobHeight p st
  /\ openHeight st' = openHeight st
  /\ heightInBounds knobHeight p st'
  /\ forall dys,
       heightInBounds knobHeight p (moves knobHeight p dys st').
Proof.
  intros Hco st'.
  assert (Hone : forall s d,
             closedHeight knobHeight p s <= openHeight s ->
             heightInBounds knobHeight p
               (handlePanResponderMove knobHeight p d s)
             /\ closedHeight knobHeight p
                  (handlePanResponderMove knobHeight p d s)
                <= openHeight (handlePanResponderMove knobHeight p d s)).
  { intros s d Hs. unfold heightInBounds.
    change (closedHeight knobHeight p
              (handlePanResponderMove knobHeight p d s))
      with (closedHeight knobHeight p s).
    cbn [handlePanResponderMove wrapperHeight openHeight]. lia. }
  destruct (Hone st dy Hco) as [Hin Hco'].
  split; [|split; [|split; [|split]]].
  - exact Hin.
  - reflexivity.
  - reflexivity.
  - exact Hin.
  - intros dys. fold st' in Hin, Hco'. clearbody st'.
    revert st' Hin Hco'. unfold moves.
    induction dys as [|d dys IH]; intros s Hin Hs; cbn [fold_left].
    + exact Hin.
    + destruct (Hone s d Hs) as [Hin' Hs']. now apply IH.
Qed.

(** C4 on [sample] (closed 148, open 332): a drag of 1000 gives 332, a
    drag of -1000 gives 148, a drag of 31 gives 179. *)
Lemma C4_move_within_bounds_witness :
  closedHeight 24 defaultProps sample = 148 /\ openHeight sample = 332
  /\ wrapperHeight (handlePanResponderMove 24 defaultProps 1000 sample) = 332
  /\ wrapperHeight (handlePanResponderMove 24 defaultProps (-1000) sample)
     = 148
  /\ wrapperHeight (handlePanResponderMove 24 defaultProps 31 sample) = 179
  /\ 148 <= wrapperHeight (handlePanResponderMove 24 defaultProps 31 sample)
     <= 332.
Proof.
  assert (Hco : closedHeight 24 defaultProps sample <= openHeight sample)
    by (vm_compute; discriminate).
  destruct (C4_move_within_bounds 24 defaultProps sample 31 Hco)
    as (Hin & _).
  repeat split; try reflexivity; apply Hin.
Defined.

(** ** Settling *)

(** C3: [bounceToPosition()] without a target compares the last live
    height with the threshold ([openHeight - closeThreshold] when open,
    [closedHeight + openThreshold] when closed) and rests at the open
    height when the height has reached the threshold, at the closed height
    otherwise.  From the closed state, a height of
    [closedHeight + openThreshold + 1] rests at the open height, and the
    position committed when the spring settles is [OPEN] (the open height
    being other than the closed one); a height of
    [closedHeight + openThreshold - 1] rests at the closed height and the
    position committed is [CLOSED].  For a starting height within bounds
    the flag passed to [onCalendarToggled] agrees with that position. *)
Theorem C3_bounce_resolves (knobHeight screenHeight screenWidth : Z)
    (p : Props) (st : State) :
  let closed := closedHeight knobHeight p st in
  let st' := bounceToPosition knobHeight p None st in
  let settled := springEnd knobHeight screenHeight screenWidth p st' in
  bounceThreshold knobHeight p st
  = (if isOpen st then openHeight st - closeThreshold p
     else closed + openThreshold p)
  /\ _height st'
     = (if _height st >=? bounceThreshold knobHeight p st
        then openHeight st else closed)
  /\ position settled = (if _height st' =? closed then CLOSED else OPEN)
  /\ (position st = CLOSED ->
      _height st = closed + openThreshold p + 1 ->
      _height st' = openHeight st
      /\ (openHeight st <> closed -> position settled = OPEN)
      /\ (_height st <= openHeight st ->
          toggled settled = toggled st ++ [true]))
  /\ (position st = CLOSED ->
      _height st = closed + openThreshold p - 1 ->
      _height st' = closed
      /\ position settled = CLOSED
      /\ (closed <= _height st ->
          toggled settled = toggled st ++ [false])).
Proof.
  intros closed st' settled.
  assert (Hthr : bounceThreshold knobHeight p st
                 = (if isOpen st then openHeight st - closeThreshold p
                    else closed + openThreshold p)) by reflexivity.
  assert (Hrest : _height st'
                  = (if _height st >=? bounceThreshold knobHeight p st
                     then openHeight st else closed))
    by reflexivity.
  pose proof (bounceToPosition_spring knobHeight p None st) as Hspring.
  cbv zeta in Hspring. fold st' in Hspring.
  assert (Hpos : position settled
                 = (if _height st' =? closed then CLOSED else OPEN))
    by (unfold settled; now rewrite (springEnd_position _ _ _ _ _ _ Hspring)).
  assert (Hflag : toggled settled
                  = toggled st
                    ++ [_height st' >=? bounceThreshold knobHeight p st])
    by (unfold settled; now rewrite (springEnd_toggled _ _ _ _ _ _ Hspring)).
  split; [exact Hthr|]. split; [exact Hrest|]. split; [exact Hpos|].
  split.
  - intros Hc Hh.
    assert (Ht : bounceThreshold knobHeight p st = closed + openThreshold p)
      by (rewrite Hthr; unfold isOpen; now rewrite Hc).
    assert (Ho : _height st' = openHeight st)
      by (rewrite Hrest, Ht, geb_true by lia; reflexivity).
    split; [exact Ho|]. split.
    + intros Hne. rewrite Hpos, Ho.
      destruct (Z.eqb_spec (openHeight st) closed); [contradiction|reflexivity].
    + intros Hle. rewrite Hflag, Ho, Ht, geb_true by lia. reflexivity.
  - intros Hc Hh.
    assert (Ht : bounceThreshold knobHeight p st = closed + openThreshold p)
      by (rewrite Hthr; unfold isOpen; now rewrite Hc).
    assert (Ho : _height st' = closed)
      by (rewrite Hrest, Ht, geb_false by lia; reflexivity).
    split; [exact Ho|]. split.
    + rewrite Hpos, Ho, Z.eqb_refl. reflexivity.
    + intros Hle. rewrite Hflag, Ho, Ht, geb_false by lia. reflexivity.
Qed.

(** C3 on [sample] (closed, closed height 148, open height 332, thresholds
    30): a gesture released at 179 settles open at 332, one released at 177
    settles closed at 148. *)
Lemma C3_bounce_resolves_witness :
  let up := commitHeight (handlePanResponderMove 24 defaultProps 31 sample) in
  let down := commitHeight (handlePanResponderMove 24 defaultProps 29 sample) in
  let settle st :=
    springEnd 24 800 400 defaultProps
      (bounceToPosition 24 defaultProps None st) in
  (position up = CLOSED /\ _height up = 148 + 30 + 1
   /\ _height (bounceToPosition 24 defaultProps None up) = 332
   /\ position (settle up) = OPEN /\ toggled (settle up) = [true])
  /\ (position down = CLOSED /\ _height down = 148 + 30 - 1
      /\ _height (bounceToPosition 24 defaultProps None down) = 148
      /\ position (settle down) = CLOSED /\ toggled (settle down) = [false]).
Proof.
  intros up down settle.
  destruct (C3_bounce_resolves 24 800 400 defaultProps up)
    as (_ & _ & _ & Hup & _).
  destruct (C3_bounce_resolves 24 800 400 defaultProps down)
    as (_ & _ & _ & _ & Hdown).
  destruct (Hup eq_refl eq_refl) as (Hu1 & Hu2 & Hu3).
  destruct (Hdown eq_refl eq_refl) as (Hd1 & Hd2 & Hd3).
  split.
  - split; [reflexivity|]. split; [reflexivity|].
    split; [exact Hu1|]. split.
    + apply Hu2. vm_compute. discriminate.
    + apply Hu3. vm_compute. discriminate.
  - split; [reflexivity|]. split; [reflexivity|].
    split; [exact Hd1|]. split.
    + exact Hd2.
    + apply Hd3. vm_compute. discriminate.
Defined.

(** C8: [toggleCalendarPosition] returns the negation of the open flag it
    was called with ([true] from [CLOSED], [false] from [OPEN]), and it
    returns while the spring it started is still in flight: the committed
    position is unchanged and no [onCalendarToggled] call has been made. *)
Theorem C8_toggle_returns_intent (knobHeight : Z) (p : Props) (st : State) :
  let r := toggleCalendarPosition knobHeight p st in
  fst r = negb (isOpen st)
  /\ (position st = CLOSED -> fst r = true)
  /\ (position st = OPEN -> fst r = false)
  /\ position (snd r) = position st
  /\ toggled (snd r) = toggled st
  /\ spring (snd r) <> None.
Proof.
  intros r. subst r. cbn [toggleCalendarPosition fst snd].
  split; [reflexivity|]. split; [|split; [|split; [|split]]].
  - intros H. unfold isOpen. now rewrite H.
  - intros H. unfold isOpen. now rewrite H.
  - reflexivity.
  - reflexivity.
  - rewrite bounceToPosition_spring. discriminate.
Qed.

(** C8 on [sample], which is closed: the call returns [true] with the
    position still [CLOSED]; the spring then settles [OPEN]. *)
Lemma C8_toggle_returns_intent_witness :
  let r := toggleCalendarPosition 24 defaultProps sample in
  position sample = CLOSED /\ fst r = true /\ position (snd r) = CLOSED
  /\ position (springEnd 24 800 400 defaultProps (snd r)) = OPEN.
Proof.
  intros r.
  destruct (C8_toggle_returns_intent 24 defaultProps sample)
    as (_ & Hc & _ & Hp & _).
  split; [reflexivity|]. split; [exact (Hc eq_refl)|].
  split; [exact Hp|reflexivity].
Defined.

(** C10: [bounceToPosition(0)] is [bounceToPosition()]: the target is
    [toValue || newValue], so a target of 0 falls back to the height the
    threshold picks (the open or the closed height).  With a target other
    than 0 the resting height is the target, and the flag passed to
    [onCalendarToggled] when the spring settles is the comparison of the
    target, not of the height the call started from, with the threshold. *)
Theorem C10_zero_target (knobHeight screenHeight screenWidth : Z)
    (p : Props) (st : State) :
  bounceToPosition knobHeight p (Some 0) st
  = bounceToPosition knobHeight p None st
  /\ _height (bounceToPosition knobHeight p (Some 0) st)
     = (if _height st >=? bounceThreshold knobHeight p st
        then openHeight st else closedHeight knobHeight p st)
  /\ forall v, v <> 0 ->
       let st' := bounceToPosition knobHeight p (Some v) st in
       _height st' = v
       /\ toggled (springEnd knobHeight screenHeight screenWidth p st')
          = toggled st ++ [v >=? bounceThreshold knobHeight p st].
Proof.
  split; [reflexivity|]. split; [reflexivity|].
  intros v Hv st'.
  assert (Hh : _height st' = v).
  { unfold st'. rewrite bounceToPosition_height. cbv zeta.
    destruct (Z.eqb_spec v 0); [contradiction|reflexivity]. }
  split; [exact Hh|].
  pose proof (bounceToPosition_spring knobHeight p (Some v) st) as Hs.
  cbv zeta in Hs. fold st' in Hs.
  rewrite (springEnd_toggled _ _ _ _ _ _ Hs). cbn [cb_isOpen].
  now rewrite Hh.
Qed.

(** C10 on [sample] opened by a drag to 300, then closed by
    [closeCalendar], whose target is the closed height 148: the flag
    reported is [148 >= 332 - 30], false, although the call started from a
    height of 332. *)
Lemma C10_zero_target_witness :
  let opened :=
    springEnd 24 800 400 defaultProps
      (gesture 24 defaultProps [152] sample) in
  let st' := bounceToPosition 24 defaultProps (Some 148) opened in
  position opened = OPEN /\ _height opened = 332
  /\ bounceThreshold 24 defaultProps opened = 302
  /\ closeCalendar 24 defaultProps opened = st'
  /\ _height st' = 148
  /\ toggled (springEnd 24 800 400 defaultProps st') = [true; false].
Proof.
  intros opened st'.
  destruct (C10_zero_target 24 800 400 defaultProps opened) as (_ & _ & H).
  destruct (H 148 ltac:(lia)) as (Hh & Ht).
  split; [reflexivity|]. split; [reflexivity|]. split; [reflexivity|].
  split; [reflexivity|].
  split; [exact Hh|]. fold st' in Ht. rewrite Ht. reflexivity.
Defined.

End ExpandableCalendarSpec.

(* ================================================================== *)
(** * Part IV: further properties of the week calendar *)
(* ================================================================== *)

Module WeekWindowFacts.
Import Civil CivilFacts XDate XDateFacts WeekCalendar WeekCalendarFacts.

(** ** Weeks *)

(** How far a day is into its week, in closed form. *)
Lemma dayInWeek_mod (z firstDay : Z) :
  0 <= firstDay <= 6 ->
  dayInWeek z firstDay = (weekday_of z - firstDay) mod 7.
Proof.
  intros Hf. unfold dayInWeek, weekStart.
  pose proof (weekday_range z) as Hw.
  destruct (wrappedDay_cases z firstDay) as [(? & ? & ->)|(? & ->)];
    Z.to_euclidean_division_equations; lia.
Qed.

Lemma weekday_shift (z k : Z) : weekday_of (z + 7 * k) = weekday_of z.
Proof.
  unfold weekday_of.
  replace (z + 7 * k + 4) with (z + 4 + k * 7) by lia.
  apply Z.mod_add. lia.
Qed.

(** Whole weeks later, the week starts whole weeks later. *)
Lemma weekStart_shift (z firstDay k : Z) :
  0 <= firstDay <= 6 ->
  weekStart (z + 7 * k) firstDay = weekStart z firstDay + 7 * k.
Proof.
  intros Hf.
  pose proof (dayInWeek_mod z firstDay Hf) as H1.
  pose proof (dayInWeek_mod (z + 7 * k) firstDay Hf) as H2.
  rewrite weekday_shift in H2. unfold dayInWeek in *. lia.
Qed.

(** The start of a week is the start of its own week. *)
Lemma weekStart_idem (z firstDay : Z) :
  0 <= firstDay <= 6 ->
  weekStart (weekStart z firstDay) firstDay = weekStart z firstDay.
Proof.
  intros Hf.
  pose proof (dayInWeek_mod (weekStart z firstDay) firstDay Hf) as H.
  rewrite (weekStart_weekday z firstDay Hf) in H.
  rewrite Z.sub_diag, Z.mod_0_l in H by lia.
  unfold dayInWeek in H. lia.
Qed.

(** Every page stands for a day of the week [weekIndex] weeks from the
    week of the anchor. *)
Lemma weekStart_pageDay (z firstDay k : Z) :
  0 <= firstDay <= 6 ->
  weekStart (pageDay z firstDay k) firstDay = weekStart z firstDay + 7 * k.
Proof.
  intros Hf. unfold pageDay. destruct (Z.eqb_spec k 0) as [->|Hk].
  - lia.
  - rewrite weekStart_shift by exact Hf.
    now rewrite weekStart_idem.
Qed.

Lemma pageDay_increasing (z firstDay j k : Z) :
  0 <= firstDay <= 6 -> j < k ->
  pageDay z firstDay j < pageDay z firstDay k.
Proof.
  intros Hf Hjk. pose proof (weekStart_bounds z firstDay Hf).
  unfold pageDay.
  destruct (Z.eqb_spec j 0); destruct (Z.eqb_spec k 0); lia.
Qed.

(** ** Searching the window *)

Lemma findIndex_from_none (p : string -> bool) (l : list string) :
  forall i0, (forall x, In x l -> p x = false) ->
             findIndex_from p l i0 = -1.
Proof.
  induction l as [|x t IH]; intros i0 Hall; cbn [findIndex_from].
  - reflexivity.
  - rewrite (Hall x (or_introl eq_refl)). apply IH.
    intros y Hy. apply Hall. now right.
Qed.

Lemma findIndex_from_first (p : string -> bool) (l : list string) :
  forall (i0 : Z) (r : nat) (x : string),
    nth_error l r = Some x -> p x = true ->
    (forall (j : nat) (y : string),
        (j < r)%nat -> nth_error l j = Some y -> p y = false) ->
    findIndex_from p l i0 = i0 + Z.of_nat r.
Proof.
  induction l as [|a t IH]; intros i0 r x Hr Hp Hbefore.
  - destruct r; discriminate Hr.
  - cbn [findIndex_from]. destruct r as [|r].
    + cbn in Hr. inversion Hr; subst a. rewrite Hp. lia.
    + rewrite (Hbefore 0%nat a ltac:(lia) eq_refl).
      rewrite (IH (i0 + 1) r x Hr Hp).
      * lia.
      * intros j y Hj Hy. apply (Hbefore (S j) y); [lia|exact Hy].
Qed.

(** An index inside the window, as a page. *)
Lemma window_nth_nat (date : string) (firstDay numberOfPages : Z) (i : nat) :
  Z.of_nat i <= 2 * numberOfPages ->
  nth_error (window date firstDay numberOfPages) i
  = Some (pageText date firstDay (Z.of_nat i - numberOfPages)).
Proof.
  intros Hi.
  pose proof (window_nth date firstDay numberOfPages
                (Z.of_nat i - numberOfPages) ltac:(lia)) as H.
  replace (numberOfPages + (Z.of_nat i - numberOfPages)) with (Z.of_nat i)
    in H by lia.
  now rewrite Nat2Z.id in H.
Qed.

Lemma window_nth_inv (date : string) (firstDay numberOfPages : Z) (i : nat)
    (d : string) :
  nth_error (window date firstDay numberOfPages) i = Some d ->
  Z.of_nat i <= 2 * numberOfPages
  /\ d = pageText date firstDay (Z.of_nat i - numberOfPages).
Proof.
  intros Hd.
  assert (Hlen : (i < List.length (window date firstDay numberOfPages))%nat)
    by (apply nth_error_Some; rewrite Hd; discriminate).
  rewrite window_eq, length_map, Zseq_length in Hlen.
  assert (Hi : Z.of_nat i <= 2 * numberOfPages) by lia.
  split; [exact Hi|].
  rewrite (window_nth_nat date firstDay numberOfPages i Hi) in Hd.
  now inversion Hd.
Qed.

Lemma pageText_parsed (date : string) (z firstDay k : Z) :
  parse date = Some z ->
  pageText date firstDay k = format (Some (pageDay z firstDay k)).
Proof. intros Hp. unfold pageText, pageValue. now rewrite Hp. Qed.

End WeekWindowFacts.

Module WeekCalendarMore.
Import Civil CivilFacts XDate XDateFacts WeekCalendar WeekCalendarFacts.
Import WeekWindowFacts.

Lemma item_at_window (date : string) (firstDay numberOfPages k : Z) :
  - numberOfPages <= k <= numberOfPages ->
  item_at (window date firstDay numberOfPages) (numberOfPages + k)
  = Some (pageText date firstDay k).
Proof.
  intros Hk. unfold item_at.
  destruct (Z.ltb_spec (numberOfPages + k) 0); [lia|].
  now apply window_nth.
Qed.

Lemma pageDay_off_center (z firstDay k : Z) :
  k <> 0 -> pageDay z firstDay k = weekStart z firstDay + 7 * k.
Proof. intros Hk. unfold pageDay. now destruct (Z.eqb_spec k 0). Qed.

Lemma pageDay_center (z firstDay : Z) : pageDay z firstDay 0 = z.
Proof. reflexivity. Qed.

Lemma initialState_items (firstDay : Z) (ctx : Context) :
  items (initialState firstDay None ctx)
  = window (date ctx) firstDay NUMBER_OF_PAGES.
Proof. reflexivity. Qed.

(** ** The window as a list of keys *)



(** The entries of a window are pairwise distinct (they are the React keys
    of the pages), for a [firstDay] in 0..6 and a window within the
    canonical range. *)
Theorem window_no_duplicates (anchor : string) (firstDay radius z : Z)
    (h : store) :
  parse anchor = Some z -> 0 <= firstDay <= 6 ->
  min_day <= z - 7 * radius - 6 -> z + 7 * radius <= max_day ->
  NoDup (fst (getDatesArray anchor firstDay radius h)).
Proof.
  intros Hp Hf Hlo Hhi.
  rewrite getDatesArray_run, <- window_eq.
  apply NoDup_nth_error. intros i j Hi Heq.
  rewrite window_eq, length_map, Zseq_length in Hi.
  assert (Hi' : Z.of_nat i <= 2 * radius) by lia.
  rewrite (window_nth_nat anchor firstDay radius i Hi') in Heq.
  symmetry in Heq. apply window_nth_inv in Heq. destruct Heq as [Hj Heq].
  assert (Hpar : forall k, - radius <= k <= radius ->
                   parse (pageText anchor firstDay k)
                   = Some (pageDay z firstDay k))
    by (intros k Hk; now apply (parse_pageText anchor z firstDay radius k)).
  pose proof (Hpar (Z.of_nat i - radius) ltac:(lia)) as Pi.
  pose proof (Hpar (Z.of_nat j - radius) ltac:(lia)) as Pj.
  rewrite Heq, Pj in Pi. inversion Pi as [E].
  destruct (Z.lt_trichotomy (Z.of_nat i) (Z.of_nat j)) as [Hlt|[He|Hgt]].
  - pose proof (pageDay_increasing z firstDay (Z.of_nat i - radius)
                  (Z.of_nat j - radius) Hf ltac:(lia)). lia.
  - lia.
  - pose proof (pageDay_increasing z firstDay (Z.of_nat j - radius)
                  (Z.of_nat i - radius) Hf ltac:(lia)). lia.
Qed.

Lemma window_no_duplicates_witness :
  NoDup (fst (getDatesArray "2024-03-15" 1 NUMBER_OF_PAGES [])).
Proof.
  apply (window_no_duplicates "2024-03-15" 1 NUMBER_OF_PAGES 19797 []).
  - vm_compute. reflexivity.
  - lia.
  - unfold min_day, NUMBER_OF_PAGES. lia.
  - unfold max_day, NUMBER_OF_PAGES. lia.
Defined.

(** ** Rebuilding the window *)

(** [reloadPages] at the page [k] pages from the center slides the window
    by [k] pages: the page [j] pages from the new center holds what the
    page [k + j] pages from the old center held, for every such page other
    than the old center.  The old center held the anchor date itself; the
    page at its place in the new window holds the start of that week. *)
Theorem reloadPages_slides_window (firstDay k z : Z) (anchor : string)
    (st : State) :
  items st = window anchor firstDay NUMBER_OF_PAGES ->
  parse anchor = Some z -> 0 <= firstDay <= 6 ->
  min_day <= z - 7 * NUMBER_OF_PAGES - 6 ->
  z + 7 * NUMBER_OF_PAGES <= max_day ->
  - NUMBER_OF_PAGES <= k <= NUMBER_OF_PAGES ->
  exists st',
    reloadPages firstDay (NUMBER_OF_PAGES + k) st = Some st'
    /\ (forall j,
          - NUMBER_OF_PAGES <= j <= NUMBER_OF_PAGES ->
          - NUMBER_OF_PAGES <= k + j <= NUMBER_OF_PAGES -> k + j <> 0 ->
          item_at (items st') (NUMBER_OF_PAGES + j)
          = item_at (items st) (NUMBER_OF_PAGES + (k + j)))
    /\ item_at (items st) NUMBER_OF_PAGES = Some (format (Some z))
    /\ (k <> 0 ->
        item_at (items st') (NUMBER_OF_PAGES - k)
        = Some (format (Some (weekStart z firstDay)))).
Proof.
  intros Hitems Hp Hf Hlo Hhi Hk.
  set (d := pageText anchor firstDay k).
  assert (Hd : item_at (items st) (NUMBER_OF_PAGES + k) = Some d)
    by (rewrite Hitems; now apply item_at_window).
  assert (Hpd : parse d = Some (pageDay z firstDay k))
    by (now apply (parse_pageText anchor z firstDay NUMBER_OF_PAGES k)).
  unfold reloadPages. rewrite Hd. eexists. split; [reflexivity|].
  cbn [setItems items]. split; [|split].
  - intros j Hj Hkj Hne.
    rewrite Hitems, !item_at_window by lia. f_equal.
    rewrite (pageText_parsed d _ firstDay j Hpd).
    rewrite (pageText_parsed anchor z firstDay (k + j) Hp). do 2 f_equal.
    rewrite (pageDay_off_center z firstDay (k + j) Hne).
    destruct (Z.eq_dec j 0) as [->|Hj0].
    + rewrite pageDay_center, pageDay_off_center by lia. lia.
    + rewrite (pageDay_off_center _ firstDay j Hj0).
      rewrite weekStart_pageDay by exact Hf. lia.
  - rewrite Hitems.
    replace NUMBER_OF_PAGES with (NUMBER_OF_PAGES + 0) at 2 by lia.
    rewrite item_at_window by (unfold NUMBER_OF_PAGES; lia).
    rewrite (pageText_parsed anchor z firstDay 0 Hp). reflexivity.
  - intros Hk0.
    replace (NUMBER_OF_PAGES - k) with (NUMBER_OF_PAGES + - k) by lia.
    rewrite item_at_window by lia.
    rewrite (pageText_parsed d _ firstDay (- k) Hpd). do 3 f_equal.
    rewrite (pageDay_off_center _ firstDay (- k)) by lia.
    rewrite weekStart_pageDay by exact Hf. lia.
Qed.

(** The window of 2024-03-15 rebuilt at page 80 (30 pages after the
    center): page 50 of the new window is the old page 80, page 51 the old
    page 81, and page 20, where 2024-03-15 was, holds 2024-03-10. *)
Lemma reloadPages_slides_window_witness :
  let st := initialState 0 None
              {| date := "2024-03-15"; updateSource := DAY_PRESS |} in
  exists st',
    reloadPages 0 80 st = Some st'
    /\ item_at (items st') 50 = item_at (items st) 80
    /\ item_at (items st') 51 = item_at (items st) 81
    /\ item_at (items st) 50 = Some "2024-03-15"%string
    /\ item_at (items st') 20 = Some "2024-03-10"%string.
Proof.
  intros st.
  pose proof (initialState_items 0
                {| date := "2024-03-15"; updateSource := DAY_PRESS |})
    as Hitems.
  cbn [date] in Hitems. fold st in Hitems.
  assert (Hp : parse "2024-03-15" = Some 19797) by (vm_compute; reflexivity).
  assert (E1 : format (Some 19797) = "2024-03-15"%string)
    by (vm_compute; reflexivity).
  assert (E2 : format (Some (weekStart 19797 0)) = "2024-03-10"%string)
    by (vm_compute; reflexivity).
  destruct (reloadPages_slides_window 0 30 19797 "2024-03-15" st Hitems Hp
              ltac:(lia)
              ltac:(unfold min_day, NUMBER_OF_PAGES; lia)
              ltac:(unfold max_day, NUMBER_OF_PAGES; lia)
              ltac:(unfold NUMBER_OF_PAGES; lia))
    as (st' & Hr & Hshift & Hc & Hold).
  exists st'. split; [exact Hr|]. split; [|split; [|split]].
  - exact (Hshift 0 ltac:(unfold NUMBER_OF_PAGES; lia)
             ltac:(unfold NUMBER_OF_PAGES; lia) ltac:(lia)).
  - exact (Hshift 1 ltac:(unfold NUMBER_OF_PAGES; lia)
             ltac:(unfold NUMBER_OF_PAGES; lia) ltac:(lia)).
  - rewrite <- E1. exact Hc.
  - rewrite <- E2. exact (Hold ltac:(lia)).
Defined.

(** [reloadPages] at the center page of a window built on a canonical date
    builds the same window again: the call is counted, the pages do not
    change. *)
Theorem reloadPages_center_same_window (firstDay z : Z) (anchor : string)
    (st : State) :
  items st = window anchor firstDay NUMBER_OF_PAGES ->
  parse anchor = Some z -> canonical z ->
  exists st',
    reloadPages firstDay NUMBER_OF_PAGES st = Some st'
    /\ items st' = items st
    /\ setItemsCalls st' = S (setItemsCalls st).
Proof.
  intros Hitems Hp Hc.
  assert (Hd : item_at (items st) NUMBER_OF_PAGES = Some (format (Some z))).
  { rewrite Hitems.
    replace NUMBER_OF_PAGES with (NUMBER_OF_PAGES + 0) at 2 by lia.
    rewrite item_at_window by (unfold NUMBER_OF_PAGES; lia).
    now rewrite (pageText_parsed anchor z firstDay 0 Hp). }
  unfold reloadPages. rewrite Hd. eexists. split; [reflexivity|].
  cbn [setItems items setItemsCalls]. split; [|reflexivity].
  rewrite Hitems, !window_eq. apply map_ext. intros k.
  unfold pageText, pageValue. now rewrite (parse_format z Hc), Hp.
Qed.

Lemma reloadPages_center_same_window_witness :
  let st := initialState 1 None
              {| date := "2024-03-15"; updateSource := DAY_PRESS |} in
  exists st',
    reloadPages 1 NUMBER_OF_PAGES st = Some st' /\ items st' = items st
    /\ setItemsCalls st' = S (setItemsCalls st).
Proof.
  intros st.
  pose proof (initialState_items 1
                {| date := "2024-03-15"; updateSource := DAY_PRESS |})
    as Hitems.
  cbn [date] in Hitems. fold st in Hitems.
  assert (Hp : parse "2024-03-15" = Some 19797) by (vm_compute; reflexivity).
  assert (Hc : canonical 19797)
    by (apply canonicalb_spec; vm_compute; reflexivity).
  exact (reloadPages_center_same_window 1 19797 "2024-03-15" st Hitems Hp Hc).
Defined.

(** ** The effect on the context date *)

Section DateEffect.

Variables firstDay containerWidth : Z.
Variable sameWeek : string -> string -> Z -> bool.
Variables (anchor : string) (z zd k : Z).
Variable st : State.
Variable ctx : Context.

Hypothesis Hitems : items st = window anchor firstDay NUMBER_OF_PAGES.
Hypothesis Hanchor : parse anchor = Some z.
Hypothesis HfirstDay : 0 <= firstDay <= 6.
Hypothesis Hlo : min_day <= z - 7 * NUMBER_OF_PAGES - 6.
Hypothesis Hhi : z + 7 * NUMBER_OF_PAGES <= max_day.
Hypothesis Hdate : date ctx = format (Some zd).
Hypothesis Hzd : canonical zd.
Hypothesis Hsame :
  forall x y, canonical x -> canonical y ->
    sameWeek (format (Some x)) (format (Some y)) firstDay
    = (weekStart x firstDay =? weekStart y firstDay).
Hypothesis Hweek : weekStart zd firstDay = weekStart z firstDay + 7 * k.

(** The page at index [i] is in the week of the context date exactly when
    it is [k] pages from the center. *)
Lemma window_sameWeek (i : nat) (d : string) :
  nth_error (items st) i = Some d ->
  sameWeek d (date ctx) firstDay = (Z.of_nat i - NUMBER_OF_PAGES =? k).
Proof.
  intros Hd. rewrite Hitems in Hd. apply window_nth_inv in Hd.
  destruct Hd as [Hi ->].
  rewrite (pageText_parsed anchor z firstDay _ Hanchor), Hdate.
  rewrite Hsame.
  - rewrite weekStart_pageDay, Hweek by exact HfirstDay.
    destruct (Z.eqb_spec (weekStart z firstDay
                          + 7 * (Z.of_nat i - NUMBER_OF_PAGES))
                         (weekStart z firstDay + 7 * k));
      destruct (Z.eqb_spec (Z.of_nat i - NUMBER_OF_PAGES) k);
      try reflexivity; lia.
  - apply in_range_canonical.
    pose proof (pageDay_bounds z firstDay NUMBER_OF_PAGES
                  (Z.of_nat i - NUMBER_OF_PAGES) HfirstDay ltac:(lia)).
    unfold in_range. lia.
  - exact Hzd.
Qed.

Lemma dateEffect_index_inside :
  - NUMBER_OF_PAGES <= k <= NUMBER_OF_PAGES ->
  findIndex (fun item => sameWeek item (date ctx) firstDay) (items st)
  = NUMBER_OF_PAGES + k.
Proof.
  intros Hk. unfold findIndex.
  assert (Hn : nth_error (items st) (Z.to_nat (NUMBER_OF_PAGES + k))
               = Some (pageText anchor firstDay k))
    by (rewrite Hitems; now apply window_nth).
  rewrite (findIndex_from_first _ _ 0 _ _ Hn).
  - lia.
  - rewrite (window_sameWeek _ _ Hn). apply Z.eqb_eq. lia.
  - intros j y Hj Hy. rewrite (window_sameWeek _ _ Hy).
    apply Z.eqb_neq. lia.
Qed.

Lemma dateEffect_index_outside :
  k < - NUMBER_OF_PAGES \/ NUMBER_OF_PAGES < k ->
  findIndex (fun item => sameWeek item (date ctx) firstDay) (items st) = -1.
Proof.
  intros Hk. apply findIndex_from_none. intros x Hx.
  apply In_nth_error in Hx. destruct Hx as [i Hi].
  rewrite (window_sameWeek _ _ Hi). apply Z.eqb_neq.
  rewrite Hitems in Hi. apply window_nth_inv in Hi. lia.
Qed.

End DateEffect.

(** When the context date changes, other than by a week scroll, to a date
    in the week of a page of the window, the effect scrolls the list,
    without animation, to that page: the page [k] weeks from the center
    when the week of the date is [k] weeks from the week of the anchor.
    [sameWeek] is taken to compare the weeks of two canonical dates. *)
Theorem dateEffect_scrolls_to_week_page (firstDay containerWidth z zd k : Z)
    (sameWeek : string -> string -> Z -> bool) (anchor : string)
    (st : State) (ctx : Context) :
  items st = window anchor firstDay NUMBER_OF_PAGES ->
  parse anchor = Some z -> 0 <= firstDay <= 6 ->
  min_day <= z - 7 * NUMBER_OF_PAGES - 6 ->
  z + 7 * NUMBER_OF_PAGES <= max_day ->
  date ctx = format (Some zd) -> canonical zd ->
  (forall x y, canonical x -> canonical y ->
     sameWeek (format (Some x)) (format (Some y)) firstDay
     = (weekStart x firstDay =? weekStart y firstDay)) ->
  weekStart zd firstDay = weekStart z firstDay + 7 * k ->
  - NUMBER_OF_PAGES <= k <= NUMBER_OF_PAGES ->
  updateSource ctx <> WEEK_SCROLL ->
  dateEffect firstDay containerWidth sameWeek ctx st
  = scrollToOffset ((NUMBER_OF_PAGES + k) * containerWidth) 0 false st.
Proof.
  intros Hitems Hp Hf Hlo Hhi Hd Hzd Hs Hw Hk Hsrc.
  unfold dateEffect.
  rewrite (dateEffect_index_inside firstDay sameWeek anchor z zd k st ctx)
    by assumption.
  destruct (updateSource ctx); try reflexivity. contradiction.
Qed.

(** From the window of 2024-03-15, a day press on 2024-04-03 (two weeks
    and a half later, the third week after) scrolls to page 53. *)
Lemma dateEffect_scrolls_to_week_page_witness :
  let st := initialState 0 None
              {| date := "2024-03-15"; updateSource := DAY_PRESS |} in
  let ctx := {| date := "2024-04-03"; updateSource := DAY_PRESS |} in
  dateEffect 0 375 sameWeekOfDays ctx st
  = scrollToOffset ((NUMBER_OF_PAGES + 3) * 375) 0 false st.
Proof.
  intros st ctx.
  pose proof (initialState_items 0
                {| date := "2024-03-15"; updateSource := DAY_PRESS |})
    as Hitems.
  cbn [date] in Hitems. fold st in Hitems.
  assert (Hp : parse "2024-03-15" = Some 19797) by (vm_compute; reflexivity).
  assert (Hd : date ctx = format (Some 19816)) by (vm_compute; reflexivity).
  assert (Hc : canonical 19816)
    by (apply canonicalb_spec; vm_compute; reflexivity).
  assert (Hw : weekStart 19816 0 = weekStart 19797 0 + 7 * 3)
    by (vm_compute; reflexivity).
  assert (Hs : forall x y, canonical x -> canonical y ->
                 sameWeekOfDays (format (Some x)) (format (Some y)) 0
                 = (weekStart x 0 =? weekStart y 0)).
  { intros x y Hx Hy. unfold sameWeekOfDays.
    now rewrite (parse_format x Hx), (parse_format y Hy). }
  exact (dateEffect_scrolls_to_week_page 0 375 19797 19816 3
           sameWeekOfDays "2024-03-15" st ctx Hitems Hp ltac:(lia)
           ltac:(unfold min_day, NUMBER_OF_PAGES; lia)
           ltac:(unfold max_day, NUMBER_OF_PAGES; lia)
           Hd Hc Hs Hw ltac:(unfold NUMBER_OF_PAGES; lia)
           ltac:(discriminate)).
Defined.

(** When the context date changes, other than by a week scroll, to a date
    whose week is not in the window, the effect finds no page: it scrolls
    to the offset [-containerWidth] and builds no window. *)
Theorem dateEffect_outside_window (firstDay containerWidth z zd k : Z)
    (sameWeek : string -> string -> Z -> bool) (anchor : string)
    (st : State) (ctx : Context) :
  items st = window anchor firstDay NUMBER_OF_PAGES ->
  parse anchor = Some z -> 0 <= firstDay <= 6 ->
  min_day <= z - 7 * NUMBER_OF_PAGES - 6 ->
  z + 7 * NUMBER_OF_PAGES <= max_day ->
  date ctx = format (Some zd) -> canonical zd ->
  (forall x y, canonical x -> canonical y ->
     sameWeek (format (Some x)) (format (Some y)) firstDay
     = (weekStart x firstDay =? weekStart y firstDay)) ->
  weekStart zd firstDay = weekStart z firstDay + 7 * k ->
  k < - NUMBER_OF_PAGES \/ NUMBER_OF_PAGES < k ->
  updateSource ctx <> WEEK_SCROLL ->
  let st' := dateEffect firstDay containerWidth sameWeek ctx st in
  st' = scrollToOffset (- containerWidth) 0 false st
  /\ items st' = items st /\ setItemsCalls st' = setItemsCalls st.
Proof.
  intros Hitems Hp Hf Hlo Hhi Hd Hzd Hs Hw Hk Hsrc st'.
  assert (E : st' = scrollToOffset (- containerWidth) 0 false st).
  { unfold st', dateEffect.
    rewrite (dateEffect_index_outside firstDay sameWeek anchor z zd k st ctx)
      by assumption.
    replace (-1 * containerWidth) with (- containerWidth) by lia.
    destruct (updateSource ctx); try reflexivity. contradiction. }
  split; [exact E|]. rewrite E. split; reflexivity.
Qed.

(** From the window of 2024-03-15, an arrow press to 2025-03-15, 52 weeks
    later, scrolls to the offset -375 and leaves the window of 2024. *)
Lemma dateEffect_outside_window_witness :
  let st := initialState 0 None
              {| date := "2024-03-15"; updateSource := DAY_PRESS |} in
  let ctx := {| date := "2025-03-15"; updateSource := ARROW_PRESS |} in
  let st' := dateEffect 0 375 sameWeekOfDays ctx st in
  st' = scrollToOffset (-375) 0 false st /\ items st' = items st.
Proof.
  intros st ctx st'.
  pose proof (initialState_items 0
                {| date := "2024-03-15"; updateSource := DAY_PRESS |})
    as Hitems.
  cbn [date] in Hitems. fold st in Hitems.
  assert (Hp : parse "2024-03-15" = Some 19797) by (vm_compute; reflexivity).
  assert (Hd : date ctx = format (Some 20162)) by (vm_compute; reflexivity).
  assert (Hc : canonical 20162)
    by (apply canonicalb_spec; vm_compute; reflexivity).
  assert (Hw : weekStart 20162 0 = weekStart 19797 0 + 7 * 52)
    by (vm_compute; reflexivity).
  assert (Hs : forall x y, canonical x -> canonical y ->
                 sameWeekOfDays (format (Some x)) (format (Some y)) 0
                 = (weekStart x 0 =? weekStart y 0)).
  { intros x y Hx Hy. unfold sameWeekOfDays.
    now rewrite (parse_format x Hx), (parse_format y Hy). }
  destruct (dateEffect_outside_window 0 375 19797 20162 52
              sameWeekOfDays "2024-03-15" st ctx Hitems Hp ltac:(lia)
              ltac:(unfold min_day, NUMBER_OF_PAGES; lia)
              ltac:(unfold max_day, NUMBER_OF_PAGES; lia)
              Hd Hc Hs Hw ltac:(unfold NUMBER_OF_PAGES; lia)
              ltac:(discriminate)) as (E & Hi & _).
  split; [exact E|exact Hi].
Defined.

End WeekCalendarMore.

(* ================================================================== *)
(** * Part V: further properties of the expandable calendar *)
(* ================================================================== *)

Module ExpandableCalendarMore.
Import ExpandableCalendar ExpandableCalendarFacts.

Section Rest.

Variables knobHeight screenHeight screenWidth : Z.
Variable p : Props.

(** The height [bounceToPosition] rests at, for the targets the component
    passes, is the open or the closed height. *)
Lemma bounce_rest_cases (arg : option Z) (st : State) :
  arg = None \/ arg = Some ((closedHeight knobHeight p) st) \/ arg = Some (openHeight st) ->
  _height (bounceToPosition knobHeight p arg st) = openHeight st
  \/ _height (bounceToPosition knobHeight p arg st) = (closedHeight knobHeight p) st.
Proof.
  intros Harg. rewrite bounceToPosition_height. cbv zeta.
  destruct Harg as [-> | [-> | ->] ].
  - cbn [Z.eqb]. destruct (_ >=? _); auto.
  - destruct (Z.eqb_spec ((closedHeight knobHeight p) st) 0); [|auto].
    destruct (_ >=? _); auto.
  - destruct (Z.eqb_spec (openHeight st) 0); [|auto].
    destruct (_ >=? _); auto.
Qed.

(** Settling after a bounce to the open or closed height leaves the
    component at rest. *)
Lemma settle_bounce_atRest (arg : option Z) (st : State) :
  openHeight st = (getOpenHeight knobHeight screenHeight screenWidth p) st ->
  arg = None \/ arg = Some ((closedHeight knobHeight p) st) \/ arg = Some (openHeight st) ->
  (atRest knobHeight screenHeight screenWidth p) ((settle knobHeight screenHeight screenWidth p) (bounceToPosition knobHeight p arg st)).
Proof.
  intros Hopen Harg.
  pose proof (bounce_rest_cases arg st Harg) as Hrest.
  pose proof (bounceToPosition_spring knobHeight p arg st) as Hs.
  cbv zeta in Hs.
  set (b := bounceToPosition knobHeight p arg st) in *.
  assert (Hbh : headerHeight b = headerHeight st) by reflexivity.
  assert (Hbw : numberOfWeeks b = numberOfWeeks st) by reflexivity.
  assert (Hbo : openHeight b = openHeight st) by reflexivity.
  unfold settle, springEnd. rewrite Hs.
  set (s := {| toValue := _height b;
               cb_isOpen := _height b >=? bounceThreshold knobHeight p st;
               cb_closedHeight := (closedHeight knobHeight p) st |}).
  set (st1 := springCallback s b).
  assert (H1 : _height st1 = (startHeight knobHeight screenHeight screenWidth p) st1
               /\ openHeight st1 = (getOpenHeight knobHeight screenHeight screenWidth p) st1
               /\ spring st1 = None).
  { unfold st1, springCallback, startHeight, isOpen, getOpenHeight,
      closedHeight.
    cbn [position _height headerHeight numberOfWeeks openHeight spring
         cb_closedHeight s].
    rewrite Hbh, Hbw, Hbo.
    fold ((closedHeight knobHeight p) st). fold ((getOpenHeight knobHeight screenHeight screenWidth p) st).
    split; [|split; [exact Hopen|reflexivity]].
    destruct (Z.eqb_spec (_height b) ((closedHeight knobHeight p) st)) as [E|E].
    - exact E.
    - destruct Hrest as [E'|E']; [|contradiction]. now rewrite E', Hopen. }
  destruct (Positions_eqb (position st1) (position b)); [exact H1|].
  destruct H1 as (Hh & Ho & Hn).
  unfold atRest, render.
  cbn [_height openHeight spring].
  assert (Hsr : forall prev,
             (startHeight knobHeight screenHeight screenWidth p) (render knobHeight screenHeight screenWidth p
                             prev st1) = (startHeight knobHeight screenHeight screenWidth p) st1) by reflexivity.
  assert (Hgr : forall prev,
             (getOpenHeight knobHeight screenHeight screenWidth p) (render knobHeight screenHeight screenWidth p
                               prev st1) = (getOpenHeight knobHeight screenHeight screenWidth p) st1)
    by reflexivity.
  unfold render in Hsr, Hgr. rewrite Hsr, Hgr.
  split; [|split; [|exact Hn]].
  - destruct (negb ((startHeight knobHeight screenHeight screenWidth p) st1 =? (startHeight knobHeight screenHeight screenWidth p) b));
      [reflexivity|exact Hh].
  - destruct (headerHeight st1 =? headerHeight b); [exact Ho|reflexivity].
Qed.

Lemma mount_atRest (weeks : Z) :
  (atRest knobHeight screenHeight screenWidth p) (mount knobHeight screenHeight screenWidth p weeks).
Proof. unfold atRest. repeat split. Qed.

Lemma onHeaderLayout_atRest (h : Z) (st : State) :
  (atRest knobHeight screenHeight screenWidth p) st ->
  (atRest knobHeight screenHeight screenWidth p) (onHeaderLayout knobHeight screenHeight screenWidth p h st).
Proof.
  intros (Hh & Ho & Hn). unfold onHeaderLayout.
  set (h' := if h =? 0 then DEFAULT_HEADER_HEIGHT else h).
  destruct (Z.eqb_spec h' (headerHeight st)) as [E|E];
    [now repeat split|].
  set (st1 := {| position := position st; headerHeight := h';
                 numberOfWeeks := numberOfWeeks st;
                 openHeight := openHeight st; _height := _height st;
                 wrapperHeight := wrapperHeight st;
                 headerTop := headerTop st; weekOpacity := weekOpacity st;
                 deltaY := deltaY st; headerDeltaY := headerDeltaY st;
                 spring := spring st; headerSpring := headerSpring st;
                 toggled := toggled st |}).
  unfold atRest.
  change ((startHeight knobHeight screenHeight screenWidth p) (render knobHeight screenHeight screenWidth p st st1))
    with ((startHeight knobHeight screenHeight screenWidth p) st1).
  change ((getOpenHeight knobHeight screenHeight screenWidth p)
            (render knobHeight screenHeight screenWidth p st st1))
    with ((getOpenHeight knobHeight screenHeight screenWidth p) st1).
  cbn [render _height openHeight spring headerHeight st1].
  split; [|split; [|exact Hn]].
  - destruct (Z.eqb_spec ((startHeight knobHeight screenHeight screenWidth p) st1) ((startHeight knobHeight screenHeight screenWidth p) st)) as [E'|E'];
      cbn [negb]; [|reflexivity].
    now rewrite E', <- Hh.
  - destruct (Z.eqb_spec h' (headerHeight st)); [contradiction|reflexivity].
Qed.

Lemma moves_keep (dys : list Z) (st : State) :
  let st' := moves knobHeight p dys st in
  position st' = position st /\ headerHeight st' = headerHeight st
  /\ numberOfWeeks st' = numberOfWeeks st /\ openHeight st' = openHeight st
  /\ _height st' = _height st /\ spring st' = spring st
  /\ toggled st' = toggled st.
Proof.
  revert st. unfold moves.
  induction dys as [|d dys IH]; intros st; cbn [fold_left].
  - repeat split.
  - specialize (IH (handlePanResponderMove knobHeight p d st)).
    cbv zeta in IH. destruct IH as (H1 & H2 & H3 & H4 & H5 & H6 & H7).
    cbv zeta. rewrite H1, H2, H3, H4, H5, H6, H7. repeat split.
Qed.

Lemma step_atRest (e : Event) (st : State) :
  (atRest knobHeight screenHeight screenWidth p) st -> (atRest knobHeight screenHeight screenWidth p) (step knobHeight screenHeight screenWidth p e st).
Proof.
  intros Hst. pose proof Hst as (Hh & Ho & Hn).
  destruct e as [h|dys| |]; cbn [step].
  - now apply onHeaderLayout_atRest.
  - destruct (numberOfDaysCondition p); [|exact Hst].
    unfold gesture, handlePanResponderEnd.
    apply settle_bounce_atRest; [|now left].
    pose proof (moves_keep dys st) as (H1 & H2 & H3 & H4 & _).
    cbv zeta in *.
    change (openHeight (commitHeight (moves knobHeight p dys st)))
      with (openHeight (moves knobHeight p dys st)).
    unfold getOpenHeight.
    cbn [commitHeight headerHeight numberOfWeeks].
    rewrite H2, H3, H4. exact Ho.
  - cbn [toggleCalendarPosition snd].
    apply settle_bounce_atRest; [exact Ho|].
    destruct (isOpen st); auto.
  - unfold closeCalendar. destruct (isOpen st).
    + apply settle_bounce_atRest; [exact Ho|auto].
    + unfold settle, springEnd. now rewrite Hn.
Qed.

End Rest.

(** Whatever the header layouts, pan gestures, knob presses and close
    requests, each left to settle, the component comes to rest with no
    spring in flight, at exactly the closed height when its position is
    [CLOSED] and at the freshly computed open height when it is [OPEN],
    and with [openHeight.current] equal to that open height. *)
Theorem rest_height_matches_position
    (knobHeight screenHeight screenWidth weeks : Z) (p : Props)
    (events : list Event) :
  let st := run knobHeight screenHeight screenWidth p events
              (mount knobHeight screenHeight screenWidth p weeks) in
  _height st
  = (if isOpen st
     then getOpenHeight knobHeight screenHeight screenWidth p st
     else closedHeight knobHeight p st)
  /\ openHeight st = getOpenHeight knobHeight screenHeight screenWidth p st
  /\ spring st = None.
Proof.
  intros st.
  assert (H : atRest knobHeight screenHeight screenWidth p st).
  { subst st. unfold run.
    generalize (mount_atRest knobHeight screenHeight screenWidth p weeks).
    generalize (mount knobHeight screenHeight screenWidth p weeks).
    induction events as [|e evs IH]; intros s Hs; cbn [fold_left].
    - exact Hs.
    - apply IH. now apply step_atRest. }
  exact H.
Qed.

(** ** The styles pushed to the views *)

Section Styles.

Variables knobHeight screenHeight screenWidth : Z.
Variable p : Props.

Lemma zero_one_in_range (b : bool) : (0 <= (if b then 0 else 1) <= 1)%Q.
Proof. destruct b; split; discriminate. Qed.

Lemma move_styles (dy : Z) (st : State) :
  stylesInRange st -> stylesInRange (handlePanResponderMove knobHeight p dy st).
Proof.
  intros [Ho Ht]. unfold stylesInRange, handlePanResponderMove.
  cbn [weekOpacity headerHeight headerTop]. split.
  - destruct (negb (horizontal p)); [exact Ho|].
    destruct (negb (isOpen st)).
    + split.
      * apply Q.min_glb; [discriminate|apply Q.le_max_r].
      * apply Q.le_min_l.
    + destruct (dy <? 0); [|exact Ho]. split.
      * apply Q.le_max_l.
      * apply Q.max_lub; [discriminate|apply Q.le_min_r].
  - intros Hh. destruct (negb (horizontal p)); [lia|auto].
Qed.

Lemma moves_styles (dys : list Z) (st : State) :
  stylesInRange st -> stylesInRange (moves knobHeight p dys st).
Proof.
  revert st. unfold moves.
  induction dys as [|d dys IH]; intros st Hst; cbn [fold_left].
  - exact Hst.
  - apply IH. now apply move_styles.
Qed.

Lemma bounce_styles (arg : option Z) (st : State) :
  stylesInRange st -> stylesInRange (bounceToPosition knobHeight p arg st).
Proof.
  intros [_ Ht]. split; [|exact Ht].
  cbn [bounceToPosition weekOpacity]. apply zero_one_in_range.
Qed.

Lemma render_styles (prev st : State) :
  stylesInRange (render knobHeight screenHeight screenWidth p prev st).
Proof.
  split; cbn [render weekOpacity headerHeight headerTop].
  - apply zero_one_in_range.
  - intros Hh. destruct (isOpen st); lia.
Qed.

Lemma settle_styles (st : State) :
  stylesInRange st ->
  stylesInRange (settle knobHeight screenHeight screenWidth p st).
Proof.
  intros Hst. unfold settle, springEnd.
  destruct (spring st) as [s|]; [|exact Hst].
  destruct (Positions_eqb _ _); [exact Hst|apply render_styles].
Qed.

Lemma step_styles (e : Event) (st : State) :
  stylesInRange st ->
  stylesInRange (step knobHeight screenHeight screenWidth p e st).
Proof.
  intros Hst. destruct e as [h|dys| |]; cbn [step].
  - unfold onHeaderLayout. destruct (_ =? headerHeight st); [exact Hst|].
    apply render_styles.
  - destruct (numberOfDaysCondition p); [|exact Hst].
    apply settle_styles. unfold gesture, handlePanResponderEnd.
    apply bounce_styles. now apply (moves_styles dys st).
  - apply settle_styles. cbn [toggleCalendarPosition snd].
    now apply bounce_styles.
  - apply settle_styles. unfold closeCalendar.
    destruct (isOpen st); [now apply bounce_styles|exact Hst].
Qed.

End Styles.

(** At every point of a gesture, after any history of settled events, the
    opacity pushed to the week strip lies in [0, 1] and, for a header of
    non-negative height, the header offset lies in [-headerHeight, 0]. *)
Theorem styles_stay_in_range
    (knobHeight screenHeight screenWidth weeks : Z) (p : Props)
    (events : list Event) (dys : list Z) :
  let st := moves knobHeight p dys
              (run knobHeight screenHeight screenWidth p events
                 (mount knobHeight screenHeight screenWidth p weeks)) in
  (0 <= weekOpacity st <= 1)%Q
  /\ (0 <= headerHeight st -> - headerHeight st <= headerTop st <= 0).
Proof.
  intros st. subst st. apply moves_styles. unfold run.
  assert (H0 : stylesInRange
                 (mount knobHeight screenHeight screenWidth p weeks)).
  { split; cbn [mount weekOpacity headerHeight headerTop].
    - apply zero_one_in_range.
    - lia. }
  revert H0. generalize (mount knobHeight screenHeight screenWidth p weeks).
  induction events as [|e evs IH]; intros s Hs; cbn [fold_left].
  - exact Hs.
  - apply IH. now apply step_styles.
Qed.

(** A vertical calendar with its header laid out, opened by the knob and
    dragged up by 50: the header offset pushed is -50, within [-78, 0]. *)
Lemma styles_stay_in_range_witness :
  let p := {| initialPosition := CLOSED; disablePan := false;
              hideKnobProp := None; openThreshold := 30;
              closeThreshold := 30; horizontal := false;
              numberOfDays := None |} in
  let st := moves 24 p [50]
              (run 24 800 400 p [Layout 78; Knob] (mount 24 800 400 p 5)) in
  headerHeight st = 78 /\ headerTop st = -50
  /\ - headerHeight st <= headerTop st <= 0.
Proof.
  intros p st.
  destruct (styles_stay_in_range 24 800 400 5 p [Layout 78; Knob] [50])
    as (_ & H).
  split; [reflexivity|]. split; [reflexivity|].
  apply H. vm_compute. discriminate.
Defined.

(** ** Gestures *)

Lemma bounce_spring_eq (knobHeight : Z) (p : Props) (arg : option Z)
    (st : State) :
  spring (bounceToPosition knobHeight p arg st)
  = Some {| toValue := _height (bounceToPosition knobHeight p arg st);
            cb_isOpen :=
              _height (bounceToPosition knobHeight p arg st)
              >=? bounceThreshold knobHeight p st;
            cb_closedHeight := closedHeight knobHeight p st |}.
Proof. exact (bounceToPosition_spring knobHeight p arg st). Qed.


Section Release.

Variables knobHeight screenHeight screenWidth : Z.
Variable p : Props.
Variable st : State.
Variables (dys : list Z) (dy : Z).

Lemma moves_last_wrapper :
  wrapperHeight (moves knobHeight p (dys ++ [dy]) st)
  = clampHeight knobHeight p st dy.
Proof.
  unfold moves. rewrite fold_left_app. cbn [fold_left].
  fold (moves knobHeight p dys st).
  pose proof (moves_keep knobHeight p dys st) as (_ & H2 & _ & H4 & H5 & _).
  cbv zeta in *. cbn [handlePanResponderMove wrapperHeight].
  unfold clampHeight, closedHeight. now rewrite H2, H4, H5.
Qed.

Lemma release_state :
  let c := commitHeight (moves knobHeight p (dys ++ [dy]) st) in
  _height c = clampHeight knobHeight p st dy
  /\ position c = position st /\ openHeight c = openHeight st
  /\ headerHeight c = headerHeight st /\ toggled c = toggled st.
Proof.
  intros c. subst c.
  cbn [commitHeight _height position openHeight headerHeight toggled].
  pose proof (moves_keep knobHeight p (dys ++ [dy]) st)
    as (H1 & H2 & _ & H4 & _ & _ & H7).
  cbv zeta in *. now rewrite moves_last_wrapper, H1, H2, H4, H7.
Qed.

Lemma gesture_height :
  _height (gesture knobHeight p (dys ++ [dy]) st)
  = (if clampHeight knobHeight p st dy >=? bounceThreshold knobHeight p st
     then openHeight st else closedHeight knobHeight p st).
Proof.
  unfold gesture, handlePanResponderEnd.
  rewrite bounceToPosition_height. cbv zeta. cbn [Z.eqb].
  destruct release_state as (E1 & E2 & E3 & E4 & _).
  unfold bounceThreshold, isOpen, closedHeight. now rewrite E1, E2, E3, E4.
Qed.

Lemma gesture_spring :
  spring (gesture knobHeight p (dys ++ [dy]) st)
  = Some {| toValue := _height (gesture knobHeight p (dys ++ [dy]) st);
            cb_isOpen :=
              _height (gesture knobHeight p (dys ++ [dy]) st)
              >=? bounceThreshold knobHeight p st;
            cb_closedHeight := closedHeight knobHeight p st |}.
Proof.
  unfold gesture, handlePanResponderEnd. rewrite bounce_spring_eq.
  destruct release_state as (_ & E2 & E3 & E4 & _).
  unfold bounceThreshold, isOpen, closedHeight. now rewrite E2, E3, E4.
Qed.

Lemma gesture_toggled :
  toggled (gesture knobHeight p (dys ++ [dy]) st) = toggled st.
Proof.
  unfold gesture, handlePanResponderEnd. cbn [bounceToPosition toggled].
  now destruct release_state as (_ & _ & _ & _ & E5).
Qed.

(** The position committed, and the flag reported, when a released gesture
    settles. *)
Lemma gesture_settled :
  let rest := _height (gesture knobHeight p (dys ++ [dy]) st) in
  let st' := settle knobHeight screenHeight screenWidth p
               (gesture knobHeight p (dys ++ [dy]) st) in
  position st'
  = (if rest =? closedHeight knobHeight p st then CLOSED else OPEN)
  /\ toggled st'
     = toggled st ++ [rest >=? bounceThreshold knobHeight p st].
Proof.
  intros rest st'. subst st'. unfold settle.
  rewrite (springEnd_position _ _ _ _ _ _ gesture_spring).
  rewrite (springEnd_toggled _ _ _ _ _ _ gesture_spring).
  cbn [cb_closedHeight cb_isOpen]. now rewrite gesture_toggled.
Qed.

End Release.

(** The height a gesture is released at, and so the height and the spring
    it settles with, depend on the last delta alone, not on the deltas
    before it. *)
Theorem gesture_last_delta (knobHeight : Z) (p : Props) (st : State)
    (dys : list Z) (dy : Z) :
  wrapperHeight (moves knobHeight p (dys ++ [dy]) st)
  = Z.min (Z.max (closedHeight knobHeight p st) (_height st + dy))
      (openHeight st)
  /\ _height (gesture knobHeight p (dys ++ [dy]) st)
     = _height (gesture knobHeight p [dy] st)
  /\ spring (gesture knobHeight p (dys ++ [dy]) st)
     = spring (gesture knobHeight p [dy] st).
Proof.
  split; [apply moves_last_wrapper|].
  pose proof (gesture_height knobHeight p st dys dy) as B1.
  pose proof (gesture_height knobHeight p st [] dy) as B2.
  pose proof (gesture_spring knobHeight p st dys dy) as S1.
  pose proof (gesture_spring knobHeight p st [] dy) as S2.
  cbn [app] in B2, S2. split.
  - now rewrite B1, B2.
  - rewrite S1, S2. now rewrite B1, B2.
Qed.

(** From a calendar resting closed, with a positive opening threshold that
    fits under the open height, a released gesture opens the calendar
    exactly when its last delta has reached the threshold; the flag passed
    to [onCalendarToggled] says the same. *)
Theorem pan_opens_iff (knobHeight screenHeight screenWidth : Z) (p : Props)
    (st : State) (dys : list Z) (dy : Z) :
  position st = CLOSED -> _height st = closedHeight knobHeight p st ->
  0 < openThreshold p ->
  closedHeight knobHeight p st + openThreshold p <= openHeight st ->
  let st' := settle knobHeight screenHeight screenWidth p
               (gesture knobHeight p (dys ++ [dy]) st) in
  position st' = (if dy >=? openThreshold p then OPEN else CLOSED)
  /\ toggled st' = toggled st ++ [dy >=? openThreshold p].
Proof.
  intros Hpos Hh Ht Hfit st'.
  destruct (gesture_settled knobHeight screenHeight screenWidth p st dys dy)
    as [Hp Hf].
  cbv zeta in Hp, Hf. fold st' in Hp, Hf.
  rewrite gesture_height in Hp, Hf.
  assert (Hthr : bounceThreshold knobHeight p st
                 = closedHeight knobHeight p st + openThreshold p)
    by (unfold bounceThreshold, isOpen; now rewrite Hpos).
  rewrite Hthr in Hp, Hf. unfold clampHeight in Hp, Hf.
  rewrite Hh in Hp, Hf. rewrite Hp, Hf.
  destruct (Z.geb_spec dy (openThreshold p)) as [Hge|Hlt].
  - rewrite geb_true by lia.
    destruct (Z.eqb_spec (openHeight st) (closedHeight knobHeight p st));
      [lia|].
    rewrite geb_true by lia. split; reflexivity.
  - rewrite geb_false by lia. rewrite Z.eqb_refl.
    rewrite geb_false by lia. split; reflexivity.
Qed.

(** On [sample] (thresholds 30): a drag of 30 opens, a drag of 29 does
    not. *)
Lemma pan_opens_iff_witness :
  position (settle 24 800 400 defaultProps
              (gesture 24 defaultProps ([5; 12] ++ [30]) sample)) = OPEN
  /\ position (settle 24 800 400 defaultProps
                 (gesture 24 defaultProps ([40] ++ [29]) sample)) = CLOSED.
Proof.
  assert (H : forall dys dy,
             let st' := settle 24 800 400 defaultProps
                          (gesture 24 defaultProps (dys ++ [dy]) sample) in
             position st' = (if dy >=? 30 then OPEN else CLOSED)
             /\ toggled st' = toggled sample ++ [dy >=? 30]).
  { intros dys dy.
    apply (pan_opens_iff 24 800 400 defaultProps sample dys dy).
    - reflexivity.
    - reflexivity.
    - reflexivity.
    - vm_compute. discriminate. }
  split.
  - exact (proj1 (H [5; 12] 30)).
  - exact (proj1 (H [40] 29)).
Defined.

(** From a calendar resting open, with a closing threshold that leaves room
    above the closed height, a released gesture closes the calendar exactly
    when its last delta has gone beyond the threshold upwards; a drag of
    exactly [-closeThreshold] leaves it open.  The flag passed to
    [onCalendarToggled] says the same. *)
Theorem pan_closes_iff (knobHeight screenHeight screenWidth : Z) (p : Props)
    (st : State) (dys : list Z) (dy : Z) :
  position st = OPEN -> _height st = openHeight st ->
  0 <= closeThreshold p ->
  closedHeight knobHeight p st < openHeight st - closeThreshold p ->
  let st' := settle knobHeight screenHeight screenWidth p
               (gesture knobHeight p (dys ++ [dy]) st) in
  position st' = (if dy >=? - closeThreshold p then OPEN else CLOSED)
  /\ toggled st' = toggled st ++ [dy >=? - closeThreshold p].
Proof.
  intros Hpos Hh Ht Hfit st'.
  destruct (gesture_settled knobHeight screenHeight screenWidth p st dys dy)
    as [Hp Hf].
  cbv zeta in Hp, Hf. fold st' in Hp, Hf.
  rewrite gesture_height in Hp, Hf.
  assert (Hthr : bounceThreshold knobHeight p st
                 = openHeight st - closeThreshold p)
    by (unfold bounceThreshold, isOpen; now rewrite Hpos).
  rewrite Hthr in Hp, Hf. unfold clampHeight in Hp, Hf.
  rewrite Hh in Hp, Hf. rewrite Hp, Hf.
  destruct (Z.geb_spec dy (- closeThreshold p)) as [Hge|Hlt].
  - rewrite geb_true by lia.
    destruct (Z.eqb_spec (openHeight st) (closedHeight knobHeight p st));
      [lia|].
    rewrite geb_true by lia. split; reflexivity.
  - rewrite geb_false by lia. rewrite Z.eqb_refl.
    rewrite geb_false by lia. split; reflexivity.
Qed.

(** On [sample] once opened: a drag of -30 leaves it open, a drag of -31
    closes it. *)
Lemma pan_closes_iff_witness :
  let opened := settle 24 800 400 defaultProps
                  (gesture 24 defaultProps [152] sample) in
  position opened = OPEN
  /\ position (settle 24 800 400 defaultProps
                 (gesture 24 defaultProps ([] ++ [-30]) opened)) = OPEN
  /\ position (settle 24 800 400 defaultProps
                 (gesture 24 defaultProps ([-10] ++ [-31]) opened)) = CLOSED.
Proof.
  intros opened.
  assert (H : forall dys dy,
             let st' := settle 24 800 400 defaultProps
                          (gesture 24 defaultProps (dys ++ [dy]) opened) in
             position st' = (if dy >=? -30 then OPEN else CLOSED)
             /\ toggled st' = toggled opened ++ [dy >=? -30]).
  { intros dys dy.
    apply (pan_closes_iff 24 800 400 defaultProps opened dys dy).
    - reflexivity.
    - reflexivity.
    - vm_compute. discriminate.
    - reflexivity. }
  split; [reflexivity|]. split.
  - exact (proj1 (H [] (-30))).
  - exact (proj1 (H [-10] (-31))).
Defined.

(** ** The knob and the close request *)

Section Toggle.

Variables knobHeight screenHeight screenWidth : Z.
Variable p : Props.

Lemma settle_keeps (st : State) :
  headerHeight (settle knobHeight screenHeight screenWidth p st)
  = headerHeight st
  /\ openHeight (settle knobHeight screenHeight screenWidth p st)
     = openHeight st.
Proof.
  unfold settle, springEnd. destruct (spring st) as [s|]; [|now split].
  destruct (Positions_eqb _ _); [now split|].
  cbn [render springCallback headerHeight openHeight].
  now rewrite Z.eqb_refl.
Qed.

Lemma settle_closedHeight (st : State) :
  closedHeight knobHeight p (settle knobHeight screenHeight screenWidth p st)
  = closedHeight knobHeight p st.
Proof. unfold closedHeight. now rewrite (proj1 (settle_keeps st)). Qed.

(** Settling after a bounce with a target other than 0. *)
Lemma settle_bounce_target (v : Z) (st : State) :
  v <> 0 ->
  let st' := settle knobHeight screenHeight screenWidth p
               (bounceToPosition knobHeight p (Some v) st) in
  position st'
  = (if v =? closedHeight knobHeight p st then CLOSED else OPEN)
  /\ toggled st' = toggled st ++ [v >=? bounceThreshold knobHeight p st]
  /\ closedHeight knobHeight p st' = closedHeight knobHeight p st
  /\ openHeight st' = openHeight st.
Proof.
  intros Hv st'. subst st'.
  assert (Hh : _height (bounceToPosition knobHeight p (Some v) st) = v).
  { rewrite bounceToPosition_height. cbv zeta.
    destruct (Z.eqb_spec v 0); [contradiction|reflexivity]. }
  pose proof (bounce_spring_eq knobHeight p (Some v) st) as Hs.
  rewrite Hh in Hs. unfold settle at 1 2.
  rewrite (springEnd_position _ _ _ _ _ _ Hs).
  rewrite (springEnd_toggled _ _ _ _ _ _ Hs).
  cbn [cb_closedHeight cb_isOpen]. rewrite Hh.
  rewrite settle_closedHeight, (proj2 (settle_keeps _)).
  repeat split.
Qed.

End Toggle.

(** With the closed height positive and below the open height,
    [toggleCalendarPosition] returns the open flag that the position
    committed when the spring settles has, and a second toggle brings the
    calendar back to the position it started from. *)
Theorem toggle_twice (knobHeight screenHeight screenWidth : Z) (p : Props)
    (st : State) :
  0 < closedHeight knobHeight p st < openHeight st ->
  let r1 := toggleCalendarPosition knobHeight p st in
  let st1 := settle knobHeight screenHeight screenWidth p (snd r1) in
  let r2 := toggleCalendarPosition knobHeight p st1 in
  let st2 := settle knobHeight screenHeight screenWidth p (snd r2) in
  isOpen st1 = fst r1 /\ isOpen st2 = fst r2 /\ position st2 = position st.
Proof.
  intros Hco r1 st1 r2 st2.
  assert (Hone : forall s,
             0 < closedHeight knobHeight p s < openHeight s ->
             let s' := settle knobHeight screenHeight screenWidth p
                         (snd (toggleCalendarPosition knobHeight p s)) in
             isOpen s' = negb (isOpen s)
             /\ closedHeight knobHeight p s' = closedHeight knobHeight p s
             /\ openHeight s' = openHeight s).
  { intros s Hs s'. subst s'. cbn [toggleCalendarPosition snd].
    destruct (settle_bounce_target knobHeight screenHeight screenWidth p
                (if isOpen s then closedHeight knobHeight p s
                 else openHeight s) s) as (Hp & _ & Hc & Ho).
    - destruct (isOpen s); lia.
    - split; [|split; [exact Hc|exact Ho]].
      unfold isOpen at 1. rewrite Hp.
      destruct (isOpen s).
      + now rewrite Z.eqb_refl.
      + destruct (Z.eqb_spec (openHeight s) (closedHeight knobHeight p s));
          [lia|reflexivity]. }
  destruct (Hone st Hco) as (H1 & Hc1 & Ho1). fold r1 st1 in H1, Hc1, Ho1.
  assert (Hco1 : 0 < closedHeight knobHeight p st1 < openHeight st1)
    by (rewrite Hc1, Ho1; exact Hco).
  destruct (Hone st1 Hco1) as (H2 & _ & _). fold r2 st2 in H2.
  split; [exact H1|]. split; [exact H2|].
  assert (Hiso : isOpen st2 = isOpen st)
    by (rewrite H2, H1; apply negb_involutive).
  unfold isOpen in Hiso.
  destruct (position st2), (position st); congruence.
Qed.

Lemma toggle_twice_witness :
  let r1 := toggleCalendarPosition 24 defaultProps sample in
  let st1 := settle 24 800 400 defaultProps (snd r1) in
  let r2 := toggleCalendarPosition 24 defaultProps st1 in
  let st2 := settle 24 800 400 defaultProps (snd r2) in
  fst r1 = true /\ position st1 = OPEN /\ fst r2 = false
  /\ position st2 = CLOSED /\ position st2 = position sample.
Proof.
  intros r1 st1 r2 st2.
  destruct (toggle_twice 24 800 400 defaultProps sample
              ltac:(vm_compute; split; reflexivity)) as (_ & _ & H).
  split; [reflexivity|]. split; [reflexivity|]. split; [reflexivity|].
  split; [reflexivity|exact H].
Defined.

(** The flag [toggleCalendarPosition] makes [onCalendarToggled] report is
    the comparison of the target height with the threshold of the state the
    toggle started from.  It agrees with the position committed exactly when
    the thresholds fit between the two heights: when opening, if
    [closedHeight + openThreshold <= openHeight]; when closing, if
    [closedHeight < openHeight - closeThreshold].  Otherwise the calendar
    opens while [false] is reported, or closes while [true] is. *)
Theorem toggle_reported_flag (knobHeight screenHeight screenWidth : Z)
    (p : Props) (st : State) :
  0 < closedHeight knobHeight p st < openHeight st ->
  let st1 := settle knobHeight screenHeight screenWidth p
               (snd (toggleCalendarPosition knobHeight p st)) in
  let flag :=
    if isOpen st
    then closedHeight knobHeight p st >=? openHeight st - closeThreshold p
    else openHeight st >=? closedHeight knobHeight p st + openThreshold p in
  toggled st1 = toggled st ++ [flag]
  /\ (flag = isOpen st1 <->
      if isOpen st
      then closedHeight knobHeight p st < openHeight st - closeThreshold p
      else closedHeight knobHeight p st + openThreshold p <= openHeight st).
Proof.
  intros Hco st1 flag. subst flag.
  unfold st1. cbn [toggleCalendarPosition snd].
  set (target := if isOpen st then closedHeight knobHeight p st
                 else openHeight st).
  set (s1 := settle knobHeight screenHeight screenWidth p
               (bounceToPosition knobHeight p (Some target) st)).
  destruct (settle_bounce_target knobHeight screenHeight screenWidth p
              target st) as (Hp & Ht & _).
  { unfold target. destruct (isOpen st); lia. }
  cbv zeta in Hp, Ht. fold s1 in Hp, Ht.
  assert (Hio : isOpen s1
                = if target =? closedHeight knobHeight p st
                  then false else true).
  { unfold isOpen at 1. rewrite Hp. now destruct (target =? _). }
  rewrite Hio, Ht. unfold bounceThreshold, target.
  destruct (isOpen st).
  - rewrite Z.eqb_refl. split; [reflexivity|].
    destruct (Z.geb_spec (closedHeight knobHeight p st)
                (openHeight st - closeThreshold p)) as [Hge|Hlt];
      split; intros Hx; try discriminate; try reflexivity; lia.
  - destruct (Z.eqb_spec (openHeight st) (closedHeight knobHeight p st));
      [lia|].
    split; [reflexivity|].
    destruct (Z.geb_spec (openHeight st)
                (closedHeight knobHeight p st + openThreshold p))
      as [Hge|Hlt];
      split; intros Hx; try discriminate; try reflexivity; lia.
Qed.

(** With an opening threshold of 200 on [sample] (closed 148, open 332),
    a press on the knob opens the calendar and reports [false]. *)
Lemma toggle_reported_flag_witness :
  let p := {| initialPosition := CLOSED; disablePan := false;
              hideKnobProp := None; openThreshold := 200;
              closeThreshold := 30; horizontal := true;
              numberOfDays := None |} in
  let st1 := settle 24 800 400 p (snd (toggleCalendarPosition 24 p sample)) in
  fst (toggleCalendarPosition 24 p sample) = true
  /\ position st1 = OPEN /\ toggled st1 = [false].
Proof.
  intros p st1.
  destruct (toggle_reported_flag 24 800 400 p sample
              ltac:(vm_compute; split; reflexivity)) as (Ht & _).
  split; [reflexivity|]. split; [reflexivity|]. exact Ht.
Defined.

(** [closeCalendar] leaves the calendar closed: an open one (no spring in
    flight, closed height other than 0) settles [CLOSED] at the closed
    height; a closed one is left as it is, without any callback. *)
Theorem closeCalendar_closes (knobHeight screenHeight screenWidth : Z)
    (p : Props) (st : State) :
  closedHeight knobHeight p st <> 0 -> spring st = None ->
  let st' := settle knobHeight screenHeight screenWidth p
               (closeCalendar knobHeight p st) in
  position st' = CLOSED
  /\ (position st = CLOSED -> st' = st)
  /\ (position st = OPEN ->
      toggled st'
      = toggled st
        ++ [closedHeight knobHeight p st
            >=? openHeight st - closeThreshold p]).
Proof.
  intros Hc Hn st'. subst st'. unfold closeCalendar.
  destruct (position st) eqn:Hpos; unfold isOpen; rewrite Hpos.
  - unfold settle, springEnd. rewrite Hn.
    split; [exact Hpos|]. split; [reflexivity|discriminate].
  - destruct (settle_bounce_target knobHeight screenHeight screenWidth p
                (closedHeight knobHeight p st) st Hc) as (Hp & Ht & _).
    rewrite Z.eqb_refl in Hp. split; [exact Hp|].
    split; [discriminate|]. intros _. rewrite Ht.
    unfold bounceThreshold, isOpen. now rewrite Hpos.
Qed.

Lemma closeCalendar_closes_witness :
  let opened := settle 24 800 400 defaultProps
                  (gesture 24 defaultProps [152] sample) in
  position opened = OPEN
  /\ position (settle 24 800 400 defaultProps
                 (closeCalendar 24 defaultProps opened)) = CLOSED
  /\ settle 24 800 400 defaultProps (closeCalendar 24 defaultProps sample)
     = sample.
Proof.
  intros opened.
  destruct (closeCalendar_closes 24 800 400 defaultProps opened
              ltac:(vm_compute; discriminate) eq_refl) as (H1 & _).
  destruct (closeCalendar_closes 24 800 400 defaultProps sample
              ltac:(vm_compute; discriminate) eq_refl) as (_ & H2 & _).
  split; [reflexivity|]. split; [exact H1|exact (H2 eq_refl)].
Defined.

(** [handleMoveShouldSetPanResponder] grants the gesture exactly when pan is
    not disabled and either the calendar is closed and the finger has moved
    down by more than 5, or it is open, horizontal, and the finger has
    moved by more than 5 either way.  So an upward drag never starts a
    gesture on a closed calendar, and nothing does on an open vertical
    one. *)
Theorem pan_granted_iff (p : Props) (dy : Z) (st : State) :
  handleMoveShouldSetPanResponder p dy st = true <->
  disablePan p = false
  /\ ((position st = CLOSED /\ 5 < dy)
      \/ (position st = OPEN /\ horizontal p = true /\ (5 < dy \/ dy < -5))).
Proof.
  unfold handleMoveShouldSetPanResponder, isOpen.
  destruct (disablePan p), (horizontal p), (position st); cbn [negb andb];
    destruct (Z.ltb_spec dy 0); destruct (Z.gtb_spec dy 5);
    destruct (Z.ltb_spec dy (-5)); cbn [orb andb];
    intuition (congruence || lia).
Qed.

End ExpandableCalendarMore.

(* ================================================================== *)
(** * Part VI: further properties of paging *)
(* ================================================================== *)

Module NavigationFacts.
Import Civil CivilFacts XDate XDateFacts ExpandableCalendar Navigation.

Lemma first_of_month_all : all_below 4800 first_of_month_ok = true.
Proof. vm_cast_no_check (eq_refl true). Qed.

(** The first of a month is read back as the first of that month. *)
Lemma civil_of_first (y m : Z) :
  1 <= m <= 12 ->
  year_of (days_from_civil y m 1) = y
  /\ month_of (days_from_civil y m 1) = m
  /\ day_of (days_from_civil y m 1) = 1.
Proof.
  intros Hm.
  set (y' := if m <=? 2 then y - 1 else y).
  set (mp := if m <=? 2 then m + 9 else m - 3).
  assert (Hmp : 0 <= mp <= 11)
    by (unfold mp; destruct (Z.leb_spec m 2); lia).
  set (era := y' / 400). set (yoe := y' mod 400).
  assert (Hy : y' = 400 * era + yoe)
    by (unfold era, yoe; apply Z.div_mod; lia).
  assert (Hyoe : 0 <= yoe < 400)
    by (unfold yoe; apply Z.mod_pos_bound; lia).
  set (g := 365 * yoe + yoe / 4 - yoe / 100 + (153 * mp + 2) / 5).
  pose proof (all_below_spec _ _ first_of_month_all (12 * yoe + mp)
                ltac:(lia)) as Hok.
  unfold first_of_month_ok in Hok.
  replace ((12 * yoe + mp) / 12) with yoe in Hok
    by (Z.to_euclidean_division_equations; lia).
  replace ((12 * yoe + mp) mod 12) with mp in Hok
    by (Z.to_euclidean_division_equations; lia).
  fold g in Hok.
  change (g - (365 * yoe_of_doe g + yoe_of_doe g / 4 - yoe_of_doe g / 100))
    with (doy_of_doe g) in Hok.
  change ((5 * doy_of_doe g + 2) / 153) with (mp_of_doe g) in Hok.
  repeat rewrite andb_true_iff in Hok.
  destruct Hok as (((Hg & Hyo) & Hmo) & Hd).
  apply Z.ltb_lt in Hg. apply Z.eqb_eq in Hyo, Hmo, Hd.
  assert (Hg0 : 0 <= g)
    by (unfold g; Z.to_euclidean_division_equations; lia).
  assert (Hz : days_from_civil y m 1 + 719468 = 146097 * era + g).
  { unfold days_from_civil. fold y' mp. unfold g. rewrite Hy.
    Z.to_euclidean_division_equations. lia. }
  assert (Hdoe : doe_of (days_from_civil y m 1) = g).
  { unfold doe_of. rewrite Hz. symmetry.
    apply (Z.mod_unique_pos _ _ era g); lia. }
  assert (Hera : era_of (days_from_civil y m 1) = era).
  { unfold era_of. rewrite Hz. symmetry.
    apply (Z.div_unique_pos _ _ era g); lia. }
  assert (Hmonth : month_of (days_from_civil y m 1) = m).
  { unfold month_of. rewrite Hdoe, Hmo. unfold mp.
    destruct (Z.leb_spec m 2).
    - destruct (Z.ltb_spec (m + 9) 10); lia.
    - destruct (Z.ltb_spec (m - 3) 10); lia. }
  split; [|split].
  - unfold year_of. rewrite Hmonth, Hdoe, Hera, Hyo.
    unfold y' in Hy. destruct (Z.leb_spec m 2); lia.
  - exact Hmonth.
  - unfold day_of. rewrite Hdoe. exact Hd.
Qed.

(** The day a month starts on, and the month after [n] more. *)
Lemma first_of_month_index (y m : Z) :
  1 <= m <= 12 -> monthIndex (days_from_civil y m 1) = 12 * y + (m - 1).
Proof.
  intros Hm. unfold monthIndex.
  destruct (civil_of_first y m Hm) as (-> & -> & _). reflexivity.
Qed.

Section Run.

Variable p : Props.
Variable firstDay : Z.

(** What [scrollPage] returns and leaves in the store, on a date. *)
Lemma scrollPage_run (st : State) (date : string) (z : Z) (next : bool)
    (src : option WeekCalendar.UpdateSources) (h : store) :
  parse date = Some z -> horizontal p = true ->
  scrollPage p firstDay st date next src h
  = (Some (format (Some (scrollTarget p firstDay st z next)),
           match src with
           | Some s => s
           | None => WeekCalendar.PAGE_SCROLL
           end),
     h ++ [Some (scrollTarget p firstDay st z next)]).
Proof.
  intros Hp Hh.
  unfold scrollPage, scrollTarget, parseDate, bind, new, setDate, addMonths,
    getDay, addDays, toMarkingFormat, ret, WeekCalendar.wrappedDay.
  rewrite Hh, Hp.
  destruct (isOpen st).
  - do 4 (rewrite ?read_fresh, ?write_fresh; cbv beta iota;
          cbn [option_map]).
    reflexivity.
  - rewrite read_fresh. cbn [option_map].
    destruct (numberOfDays p) as [[|n|n]|];
      destruct ((weekday_of z <? firstDay) && (firstDay >? 0));
      do 4 (rewrite ?read_fresh, ?write_fresh; cbv beta iota;
            cbn [option_map]);
      reflexivity.
Qed.

Lemma scrollPage_vertical (st : State) (date : string) (next : bool)
    (src : option WeekCalendar.UpdateSources) (h : store) :
  horizontal p = false ->
  scrollPage p firstDay st date next src h = (None, h).
Proof. intros Hh. unfold scrollPage. now rewrite Hh. Qed.

End Run.

End NavigationFacts.

Module NavigationMore.
Import Civil CivilFacts XDate XDateFacts ExpandableCalendar Navigation.
Import NavigationFacts.

Section Targets.

Variable p : Props.
Variable firstDay : Z.
Variable st : State.

Lemma weekMode_target (z : Z) (next : bool) :
  position st = CLOSED ->
  numberOfDays p = None \/ numberOfDays p = Some 0 ->
  scrollTarget p firstDay st z next
  = WeekCalendar.weekStart z firstDay + 7 * (if next then 1 else -1).
Proof.
  intros Hpos Hn. unfold scrollTarget, isOpen. rewrite Hpos.
  unfold WeekCalendar.weekStart.
  destruct Hn as [-> | ->]; destruct next; lia.
Qed.

Lemma monthMode_target (z : Z) (next : bool) :
  position st = OPEN ->
  let t := scrollTarget p firstDay st z next in
  day_of t = 1 /\ monthIndex t = monthIndex z + (if next then 1 else -1).
Proof.
  intros Hpos t. subst t. unfold scrollTarget, isOpen. rewrite Hpos.
  pose proof (month_range z) as Hm.
  rewrite !Z.sub_diag, !Z.add_0_r.
  destruct (civil_of_first (year_of z) (month_of z) Hm) as (-> & -> & ->).
  rewrite Z.sub_diag, Z.add_0_r.
  set (mi := month_of z - 1 + (if next then 1 else -1)).
  assert (Hmi : 1 <= mi mod 12 + 1 <= 12)
    by (pose proof (Z.mod_pos_bound mi 12); lia).
  destruct (civil_of_first (year_of z + mi / 12) (mi mod 12 + 1) Hmi)
    as (Hy & Hmo & Hd).
  split; [exact Hd|].
  unfold monthIndex. rewrite Hy, Hmo.
  pose proof (Z.div_mod mi 12). unfold mi in *. lia.
Qed.

End Targets.

(** A first of a month is determined by its month. *)
Lemma first_of_month_unique (a b : Z) :
  day_of a = 1 -> day_of b = 1 -> monthIndex a = monthIndex b -> a = b.
Proof.
  intros Ha Hb Hi. unfold monthIndex in Hi.
  pose proof (month_range a). pose proof (month_range b).
  assert (Hy : year_of a = year_of b) by lia.
  assert (Hm : month_of a = month_of b) by lia.
  rewrite <- (days_from_civil_of_day a), <- (days_from_civil_of_day b).
  now rewrite Ha, Hb, Hy, Hm.
Qed.

(** On a closed calendar that pages by weeks, an arrow press publishes,
    tagged [WEEK_ARROW_PRESS], the very date the week calendar holds on the
    page next to its center (after it for the right arrow, before it for
    the left one) in the window built on the same date and [firstDay]. *)
Theorem week_arrow_publishes_adjacent_page (p : Props) (firstDay z : Z)
    (st : State) (date : string) (next : bool) (h h' : store) :
  horizontal p = true -> position st = CLOSED ->
  numberOfDays p = None \/ numberOfDays p = Some 0 ->
  parse date = Some z ->
  exists d,
    fst (_onPressArrow p firstDay st date next h)
    = Some (d, WeekCalendar.WEEK_ARROW_PRESS)
    /\ nth_error
         (fst (WeekCalendar.getDatesArray date firstDay
                 WeekCalendar.NUMBER_OF_PAGES h'))
         (Z.to_nat (WeekCalendar.NUMBER_OF_PAGES + (if next then 1 else -1)))
       = Some d.
Proof.
  intros Hh Hpos Hn Hp.
  exists (format (Some (WeekCalendar.weekStart z firstDay
                        + 7 * (if next then 1 else -1)))).
  split.
  - unfold _onPressArrow.
    rewrite (scrollPage_run p firstDay st date z next _ h Hp Hh).
    cbn [fst]. rewrite (weekMode_target p firstDay st z next Hpos Hn).
    unfold isOpen. now rewrite Hpos.
  - rewrite WeekCalendarFacts.getDatesArray_nth
      by (unfold WeekCalendar.NUMBER_OF_PAGES; destruct next; lia).
    rewrite (WeekCalendarFacts.pageText_off_center date firstDay _ z Hp)
      by (destruct next; lia).
    reflexivity.
Qed.

Lemma week_arrow_publishes_adjacent_page_witness :
  fst (_onPressArrow defaultProps 0 sample "2024-03-15" true [])
  = Some ("2024-03-17"%string, WeekCalendar.WEEK_ARROW_PRESS)
  /\ nth_error
       (fst (WeekCalendar.getDatesArray "2024-03-15" 0
               WeekCalendar.NUMBER_OF_PAGES [])) 51
     = Some "2024-03-17"%string.
Proof.
  assert (Hp : parse "2024-03-15" = Some 19797) by (vm_compute; reflexivity).
  destruct (week_arrow_publishes_adjacent_page defaultProps 0 19797 sample
              "2024-03-15" true [] [] eq_refl eq_refl (or_introl eq_refl) Hp)
    as (d & H1 & H2).
  assert (E : fst (_onPressArrow defaultProps 0 sample "2024-03-15" true [])
              = Some ("2024-03-17"%string, WeekCalendar.WEEK_ARROW_PRESS))
    by (vm_compute; reflexivity).
  split; [exact E|].
  rewrite E in H1. inversion H1; subst d. exact H2.
Defined.

(** On an open horizontal calendar, [scrollPage] publishes the first day
    of the month after the month of the context date, or before it: the
    day of the month is 1 and the month, counted across years, is one more
    or one less. *)
Theorem month_page_publishes_first_of_month (p : Props) (firstDay z : Z)
    (st : State) (date : string) (next : bool)
    (src : option WeekCalendar.UpdateSources) (h : store) :
  horizontal p = true -> position st = OPEN -> parse date = Some z ->
  exists t,
    fst (scrollPage p firstDay st date next src h)
    = Some (format (Some t),
            match src with
            | Some s => s
            | None => WeekCalendar.PAGE_SCROLL
            end)
    /\ day_of t = 1
    /\ monthIndex t = monthIndex z + (if next then 1 else -1).
Proof.
  intros Hh Hpos Hp. exists (scrollTarget p firstDay st z next).
  rewrite (scrollPage_run p firstDay st date z next src h Hp Hh).
  split; [reflexivity|].
  exact (monthMode_target p firstDay st z next Hpos).
Qed.

(** From 2024-12-25 the next page is 2025-01-01; from 2024-01-15 the
    previous page is 2023-12-01. *)
Lemma month_page_publishes_first_of_month_witness :
  fst (scrollPage defaultProps 0 (stateAt OPEN) "2024-12-25" true None [])
  = Some ("2025-01-01"%string, WeekCalendar.PAGE_SCROLL)
  /\ fst (scrollPage defaultProps 0 (stateAt OPEN) "2024-01-15" false None [])
     = Some ("2023-12-01"%string, WeekCalendar.PAGE_SCROLL)
  /\ exists t,
       fst (scrollPage defaultProps 0 (stateAt OPEN) "2024-12-25" true None [])
       = Some (format (Some t), WeekCalendar.PAGE_SCROLL)
       /\ day_of t = 1 /\ monthIndex t = monthIndex 20082 + 1.
Proof.
  split; [vm_compute; reflexivity|]. split; [vm_compute; reflexivity|].
  assert (Hp : parse "2024-12-25" = Some 20082) by (vm_compute; reflexivity).
  exact (month_page_publishes_first_of_month defaultProps 0 20082
           (stateAt OPEN) "2024-12-25" true None [] eq_refl eq_refl Hp).
Defined.

(** Paging one way and then back publishes the start of the page the date
    was on: the first of its month on an open calendar, the start of its
    week on a closed one that pages by weeks, the date itself when days
    are paged by [numberOfDays].  (The dates published are taken to have
    four-digit years.) *)
Theorem page_there_and_back (p : Props) (firstDay z : Z) (st : State)
    (date d1 : string) (next : bool)
    (src s : option WeekCalendar.UpdateSources) (s1 : WeekCalendar.UpdateSources)
    (h h' : store) :
  horizontal p = true -> 0 <= firstDay <= 6 -> parse date = Some z ->
  canonical (scrollTarget p firstDay st z next) ->
  fst (scrollPage p firstDay st date next src h) = Some (d1, s1) ->
  fst (scrollPage p firstDay st d1 (negb next) s h')
  = Some (format (Some (pageStart p firstDay st z)),
          match s with
          | Some s => s
          | None => WeekCalendar.PAGE_SCROLL
          end).
Proof.
  intros Hh Hf Hp Hc H1.
  rewrite (scrollPage_run p firstDay st date z next src h Hp Hh) in H1.
  cbn [fst] in H1.
  set (t := scrollTarget p firstDay st z next) in *.
  assert (Hd1 : d1 = format (Some t)) by (inversion H1; reflexivity).
  subst d1. clear H1.
  assert (Hp1 : parse (format (Some t)) = Some t) by now apply parse_format.
  rewrite (scrollPage_run p firstDay st _ t (negb next) s h' Hp1 Hh).
  cbn [fst].
  assert (E : scrollTarget p firstDay st t (negb next)
              = pageStart p firstDay st z); [|now rewrite E].
  destruct (position st) eqn:Hpos.
  - (* closed *)
    unfold pageStart, isOpen. rewrite Hpos.
    destruct (numberOfDays p) as [n|] eqn:Hn.
    + destruct (Z.eq_dec n 0) as [->|Hn0].
      * rewrite (weekMode_target p firstDay st t (negb next) Hpos
                   (or_intror Hn)).
        unfold t.
        rewrite (weekMode_target p firstDay st z next Hpos (or_intror Hn)).
        rewrite WeekWindowFacts.weekStart_shift by exact Hf.
        rewrite WeekWindowFacts.weekStart_idem by exact Hf.
        destruct next; cbn [negb]; lia.
      * unfold t, scrollTarget, isOpen. rewrite Hpos, Hn.
        destruct n as [|n|n]; [contradiction| |];
          destruct next; cbn [negb]; lia.
    + rewrite (weekMode_target p firstDay st t (negb next) Hpos
                 (or_introl Hn)).
      unfold t.
      rewrite (weekMode_target p firstDay st z next Hpos (or_introl Hn)).
      rewrite WeekWindowFacts.weekStart_shift by exact Hf.
      rewrite WeekWindowFacts.weekStart_idem by exact Hf.
      destruct next; cbn [negb]; lia.
  - (* open *)
    unfold pageStart, isOpen. rewrite Hpos.
    destruct (monthMode_target p firstDay st z next Hpos) as (D1 & I1).
    destruct (monthMode_target p firstDay st t (negb next) Hpos)
      as (D2 & I2).
    fold t in D1, I1.
    pose proof (month_range z) as Hm.
    destruct (civil_of_first (year_of z) (month_of z) Hm) as (_ & _ & D3).
    pose proof (first_of_month_index (year_of z) (month_of z) Hm) as I3.
    apply first_of_month_unique; [exact D2|exact D3|].
    rewrite I2, I1, I3. unfold monthIndex. destruct next; cbn [negb]; lia.
Qed.

(** Next then previous from 2024-03-15: to the Sunday 2024-03-10 on a
    closed calendar, to 2024-03-01 on an open one. *)
Lemma page_there_and_back_witness :
  fst (scrollPage defaultProps 0 (stateAt CLOSED) "2024-03-17" false None [])
  = Some ("2024-03-10"%string, WeekCalendar.PAGE_SCROLL)
  /\ fst (scrollPage defaultProps 0 (stateAt OPEN) "2024-04-01" false None [])
     = Some ("2024-03-01"%string, WeekCalendar.PAGE_SCROLL).
Proof.
  assert (Hp : parse "2024-03-15" = Some 19797) by (vm_compute; reflexivity).
  assert (E1 : format (Some (pageStart defaultProps 0 (stateAt CLOSED) 19797))
               = "2024-03-10"%string) by (vm_compute; reflexivity).
  assert (E2 : format (Some (pageStart defaultProps 0 (stateAt OPEN) 19797))
               = "2024-03-01"%string) by (vm_compute; reflexivity).
  rewrite <- E1, <- E2. split.
  - apply (page_there_and_back defaultProps 0 19797 (stateAt CLOSED)
             "2024-03-15" "2024-03-17" true None None
             WeekCalendar.PAGE_SCROLL [] []).
    + reflexivity.
    + lia.
    + exact Hp.
    + apply canonicalb_spec. vm_compute. reflexivity.
    + vm_compute. reflexivity.
  - apply (page_there_and_back defaultProps 0 19797 (stateAt OPEN)
             "2024-03-15" "2024-04-01" true None None
             WeekCalendar.PAGE_SCROLL [] []).
    + reflexivity.
    + lia.
    + exact Hp.
    + apply canonicalb_spec. vm_compute. reflexivity.
    + vm_compute. reflexivity.
Defined.

(** The arrows and the week strip together: on a closed calendar paging by
    weeks, an arrow press publishes a date whose echo makes the week
    calendar, its window built on the date before the press, scroll by
    exactly one page: to the page after the center for the right arrow,
    before it for the left one.  [sameWeek] is taken to compare the weeks
    of two canonical dates. *)
Theorem week_arrow_scrolls_one_page (p : Props)
    (firstDay containerWidth z : Z)
    (sameWeek : string -> string -> Z -> bool)
    (est : State) (wst : WeekCalendar.State) (date : string) (next : bool)
    (h : store) :
  horizontal p = true -> position est = CLOSED ->
  numberOfDays p = None \/ numberOfDays p = Some 0 ->
  parse date = Some z -> 0 <= firstDay <= 6 ->
  min_day <= z - 7 * WeekCalendar.NUMBER_OF_PAGES - 6 ->
  z + 7 * WeekCalendar.NUMBER_OF_PAGES <= max_day ->
  WeekCalendar.items wst
  = WeekCalendar.window date firstDay WeekCalendar.NUMBER_OF_PAGES ->
  (forall x y, canonical x -> canonical y ->
     sameWeek (format (Some x)) (format (Some y)) firstDay
     = (WeekCalendar.weekStart x firstDay
        =? WeekCalendar.weekStart y firstDay)) ->
  exists d src,
    fst (_onPressArrow p firstDay est date next h) = Some (d, src)
    /\ WeekCalendar.dateEffect firstDay containerWidth sameWeek
         {| WeekCalendar.date := d; WeekCalendar.updateSource := src |} wst
       = WeekCalendar.scrollToOffset
           ((WeekCalendar.NUMBER_OF_PAGES + (if next then 1 else -1))
            * containerWidth) 0 false wst.
Proof.
  intros Hh Hpos Hn Hp Hf Hlo Hhi Hitems Hs.
  set (k := if next then 1 else -1).
  set (zd := WeekCalendar.weekStart z firstDay + 7 * k).
  assert (Hk : -1 <= k <= 1) by (unfold k; destruct next; lia).
  exists (format (Some zd)), WeekCalendar.WEEK_ARROW_PRESS. split.
  - unfold _onPressArrow.
    rewrite (scrollPage_run p firstDay est date z next _ h Hp Hh).
    cbn [fst]. rewrite (weekMode_target p firstDay est z next Hpos Hn).
    unfold isOpen. now rewrite Hpos.
  - pose proof (WeekCalendarFacts.weekStart_bounds z firstDay Hf) as Hb.
    assert (Hc : canonical zd).
    { apply in_range_canonical. unfold in_range, zd.
      unfold WeekCalendar.NUMBER_OF_PAGES in *. lia. }
    assert (Hw : WeekCalendar.weekStart zd firstDay
                 = WeekCalendar.weekStart z firstDay + 7 * k).
    { unfold zd. rewrite WeekWindowFacts.weekStart_shift by exact Hf.
      now rewrite WeekWindowFacts.weekStart_idem. }
    unfold WeekCalendar.dateEffect.
    cbn [WeekCalendar.updateSource WeekCalendar.UpdateSources_eqb negb].
    rewrite (WeekCalendarMore.dateEffect_index_inside firstDay sameWeek
               date z zd k wst
               {| WeekCalendar.date := format (Some zd);
                  WeekCalendar.updateSource :=
                    WeekCalendar.WEEK_ARROW_PRESS |}
               Hitems Hp Hf Hlo Hhi eq_refl Hc Hs Hw)
      by (unfold WeekCalendar.NUMBER_OF_PAGES; lia).
    reflexivity.
Qed.

(** The right arrow on 2024-03-15 publishes 2024-03-17, and the week
    calendar scrolls to page 51. *)
Lemma week_arrow_scrolls_one_page_witness :
  let wst := WeekCalendar.initialState 0 None
               {| WeekCalendar.date := "2024-03-15";
                  WeekCalendar.updateSource := WeekCalendar.DAY_PRESS |} in
  exists d src,
    fst (_onPressArrow defaultProps 0 sample "2024-03-15" true [])
    = Some (d, src)
    /\ WeekCalendar.dateEffect 0 375 WeekCalendar.sameWeekOfDays
         {| WeekCalendar.date := d; WeekCalendar.updateSource := src |} wst
       = WeekCalendar.scrollToOffset
           ((WeekCalendar.NUMBER_OF_PAGES + 1) * 375) 0 false wst.
Proof.
  intros wst.
  pose proof (WeekCalendarMore.initialState_items 0
                {| WeekCalendar.date := "2024-03-15";
                   WeekCalendar.updateSource := WeekCalendar.DAY_PRESS |})
    as Hitems.
  cbn [WeekCalendar.date] in Hitems. fold wst in Hitems.
  assert (Hp : parse "2024-03-15" = Some 19797) by (vm_compute; reflexivity).
  assert (Hs : forall x y, canonical x -> canonical y ->
                 WeekCalendar.sameWeekOfDays (format (Some x))
                   (format (Some y)) 0
                 = (WeekCalendar.weekStart x 0 =? WeekCalendar.weekStart y 0)).
  { intros x y Hx Hy. unfold WeekCalendar.sameWeekOfDays.
    now rewrite (parse_format x Hx), (parse_format y Hy). }
  exact (week_arrow_scrolls_one_page defaultProps 0 375 19797
           WeekCalendar.sameWeekOfDays sample wst "2024-03-15" true []
           eq_refl eq_refl (or_introl eq_refl) Hp ltac:(lia)
           ltac:(unfold min_day, WeekCalendar.NUMBER_OF_PAGES; lia)
           ltac:(unfold max_day, WeekCalendar.NUMBER_OF_PAGES; lia)
           Hitems Hs).
Defined.

End NavigationMore.
